(** * LLAMAStreamer: the llamaDAQ stream demultiplexer

    A shallow embedding of [daq2lh5/llama/llama_streamer.py] and the
    properties of its packet framing: the peek/rewind protocol of
    [__read_bytes], the counters kept by [read_packet], and the
    open/close guards. *)

From Stdlib Require Import ZArith List Lia.
From Stdlib.Strings Require Import Byte.
From stdpp Require Import base tactics option list relations gmap strings pretty.

Local Open Scope Z_scope.

(** ** Python exceptions

    Only the exception class and its payload matter to the callers.
    [RuntimeError] carries the message the source formats. *)
Inductive exn : Type :=
| RuntimeError (msg : string)
| KeyError (key : Z)
| IndexError
| OSError (filename : string)
| OtherError (what : string).

(** ** The byte-stream transport: a file opened with ["rb"]

    [open(..., "rb")] yields a buffered reader over a regular file.  The
    file contents do not change while it is read; the reader keeps a
    position. *)
Record BufferedReader : Type := mkReader {
  content : list byte;
  offset : nat
}.

Definition tell (f : BufferedReader) : nat := offset f.

Definition seek (position : nat) (f : BufferedReader) : BufferedReader :=
  mkReader (content f) position.

(** [f.read(size)] for [size >= 0]: up to [size] bytes, fewer only when the
    end of the file is reached; the position advances by what was read. *)
Definition read (size : nat) (f : BufferedReader) : list byte * BufferedReader :=
  let data := take size (drop (offset f) (content f)) in
  (data, mkReader (content f) (offset f + length data)).

(** Bytes left between the position and the end of the file. *)
Definition available (f : BufferedReader) : nat :=
  length (drop (offset f) (content f)).

(** ** [np.fromstring(data, dtype=np.uint32)]

    [np.uint32] is in native byte order, so the host's order is a parameter
    of the model. *)
Inductive byteorder : Type := LittleEndian | BigEndian.

Definition byte_val (b : byte) : Z := Z.of_N (Byte.to_N b).

Fixpoint le_to_Z (bs : list byte) : Z :=
  match bs with
  | [] => 0
  | b :: rest => byte_val b + 256 * le_to_Z rest
  end.

Definition uint32_of (order : byteorder) (b0 b1 b2 b3 : byte) : Z :=
  match order with
  | LittleEndian => le_to_Z [b0; b1; b2; b3]
  | BigEndian => le_to_Z [b3; b2; b1; b0]
  end.

(** One array element per four bytes.  (numpy rejects a length that is not
    a multiple of four; the streamer only passes exactly four bytes.) *)
Fixpoint fromstring_uint32 (order : byteorder) (data : list byte) : list Z :=
  match data with
  | b0 :: b1 :: b2 :: b3 :: rest =>
      uint32_of order b0 b1 b2 b3 :: fromstring_uint32 order rest
  | _ => []
  end.

(** ** Channel configuration

    Modelled from the spec: [LLAMA_Channel_Configs_t] is declared in
    [llama_header_decoder.py]; a channel's entry holds [event_length], the
    length of its event packet in 32-bit words (an unsigned quantity), next
    to decode parameters the streamer never reads. *)
Record ChannelConfig : Type := mkChannelConfig {
  event_length : N
}.

Abbreviation ChannelConfigs := (gmap Z ChannelConfig).

(** ** Collaborators

    The header decoder, the event decoder, the raw-buffer library and the
    [DataStreamer] base class live in other modules.  The streamer only
    calls them, so they are an interface here.  Each call returns the
    collaborator's new state together with its result or the exception it
    raised. *)
Class Collaborators : Type := {
  Struct : Type;
  HeaderDecoder : Type;
  EventDecoder : Type;
  RawBuffer : Type;
  Rbkd : Type;
  native : byteorder;
  (** [open(name, "rb")] *)
  open_file : string → exn + list byte;
  (** [LLAMAHeaderDecoder()] and [LLAMAEventDecoder()] *)
  new_header_decoder : HeaderDecoder;
  new_event_decoder : EventDecoder;
  (** [header_decoder.decode_header(in_stream)]: the header and the number
      of bytes it says it read, and the position it leaves the stream at *)
  decode_header :
    BufferedReader → HeaderDecoder →
    (exn + Struct * Z) * nat * HeaderDecoder;
  get_channel_configs : HeaderDecoder → ChannelConfigs;
  set_channel_configs : ChannelConfigs → EventDecoder → EventDecoder;
  (** [event_decoder.decode_packet(packet, evt_rbkd, packet_id, fch_id)]:
      fills the buffer of the channel and tells whether it is full. *)
  decode_packet :
    list byte → option Rbkd → Z → Z → EventDecoder →
    (exn + bool) * option Rbkd * EventDecoder;
  (** [DataStreamer.open_stream]: the library as the base class leaves it.
      It works in place on the library passed in, or builds one when none
      is passed, and stores that same object as [self.rb_lib]. *)
  base_open_stream :
    string → option (gmap string (list RawBuffer)) → Z → string → string →
    exn + gmap string (list RawBuffer);
  (** [RawBufferList.get_keyed_dict()] *)
  get_keyed_dict : list RawBuffer → Rbkd;
  (** [RawBuffer(lgdo=header)] and the assignment [rb.loc = n] *)
  new_RawBuffer : Struct → RawBuffer;
  set_loc : Z → RawBuffer → RawBuffer
}.

Section Streamer.
Context {env : Collaborators}.

Abbreviation RawBufferLibrary := (gmap string (list RawBuffer)).

(** ** The streamer object

    [n_bytes_read], [packet_id], [any_full] and [rb_lib] are attributes of
    the [DataStreamer] base class.  [stdout] collects what [print] wrote.
    [rb_lib] records the library as [open_stream] left it; the contents of
    the event buffers, which the decoder fills, are followed in
    [event_rbkd] only. *)
Record LLAMAStreamer : Type := mkStreamer {
  in_stream : option BufferedReader;
  event_rbkd : option Rbkd;
  header_decoder : HeaderDecoder;
  event_decoder : EventDecoder;
  rb_lib : option RawBufferLibrary;
  n_bytes_read : Z;
  packet_id : Z;
  any_full : bool;
  stdout : list string
}.

Definition with_in_stream (v : option BufferedReader) (s : LLAMAStreamer) :=
  mkStreamer v (event_rbkd s) (header_decoder s) (event_decoder s) (rb_lib s)
    (n_bytes_read s) (packet_id s) (any_full s) (stdout s).
Definition with_event_rbkd (v : option Rbkd) (s : LLAMAStreamer) :=
  mkStreamer (in_stream s) v (header_decoder s) (event_decoder s) (rb_lib s)
    (n_bytes_read s) (packet_id s) (any_full s) (stdout s).
Definition with_header_decoder (v : HeaderDecoder) (s : LLAMAStreamer) :=
  mkStreamer (in_stream s) (event_rbkd s) v (event_decoder s) (rb_lib s)
    (n_bytes_read s) (packet_id s) (any_full s) (stdout s).
Definition with_event_decoder (v : EventDecoder) (s : LLAMAStreamer) :=
  mkStreamer (in_stream s) (event_rbkd s) (header_decoder s) v (rb_lib s)
    (n_bytes_read s) (packet_id s) (any_full s) (stdout s).
Definition with_rb_lib (v : option RawBufferLibrary) (s : LLAMAStreamer) :=
  mkStreamer (in_stream s) (event_rbkd s) (header_decoder s) (event_decoder s) v
    (n_bytes_read s) (packet_id s) (any_full s) (stdout s).
Definition with_n_bytes_read (v : Z) (s : LLAMAStreamer) :=
  mkStreamer (in_stream s) (event_rbkd s) (header_decoder s) (event_decoder s)
    (rb_lib s) v (packet_id s) (any_full s) (stdout s).
Definition with_packet_id (v : Z) (s : LLAMAStreamer) :=
  mkStreamer (in_stream s) (event_rbkd s) (header_decoder s) (event_decoder s)
    (rb_lib s) (n_bytes_read s) v (any_full s) (stdout s).
Definition with_any_full (v : bool) (s : LLAMAStreamer) :=
  mkStreamer (in_stream s) (event_rbkd s) (header_decoder s) (event_decoder s)
    (rb_lib s) (n_bytes_read s) (packet_id s) v (stdout s).
Definition with_stdout (v : list string) (s : LLAMAStreamer) :=
  mkStreamer (in_stream s) (event_rbkd s) (header_decoder s) (event_decoder s)
    (rb_lib s) (n_bytes_read s) (packet_id s) (any_full s) v.

(** [LLAMAStreamer.__init__] *)
Definition init : LLAMAStreamer :=
  mkStreamer None None new_header_decoder new_event_decoder None 0 0 false [].

(** ** Methods: state and exceptions

    A method takes the object and gives back the object as the call left
    it, with either the returned value or the raised exception.  An
    exception keeps the assignments made before it. *)
Definition M (A : Type) : Type := LLAMAStreamer → (exn + A) * LLAMAStreamer.

#[local] Instance M_ret : MRet M := λ A a s, (inr a, s).
#[local] Instance M_bind : MBind M := λ A B k m s,
  match m s with
  | (inl e, s') => (inl e, s')
  | (inr a, s') => k a s'
  end.

Definition raise {A : Type} (e : exn) : M A := λ s, (inl e, s).
Definition get : M LLAMAStreamer := λ s, (inr s, s).
Definition modify (f : LLAMAStreamer → LLAMAStreamer) : M unit := λ s, (inr tt, f s).
Definition print (line : string) : M unit :=
  modify (λ s, with_stdout (stdout s ++ [line]) s).

(** ** [__read_bytes]

    Gives the packet, or [None] at the end of the file, and the channel id
    read from the first word of the event header. *)
Definition read_bytes : M (option (list byte) * Z) :=
  s ← get;
  match in_stream s with
  | None => raise (RuntimeError "No stream open!")
  | Some f =>
      let position := tell f in
      let '(data1, f) := read 4 f in
      modify (with_in_stream (Some f));;
      if decide (length data1 < 4)%nat then mret (None, -1)
      else
        let f := seek position f in
        modify (with_in_stream (Some f));;
        let header_data_32 := fromstring_uint32 native data1 in
        match header_data_32 !! 0%nat with
        | None => raise IndexError
        | Some word =>
            let fch_id := Z.land (Z.shiftr word 4) 0x00000fff in
            s ← get;
            match get_channel_configs (header_decoder s) !! fch_id with
            | None => raise (KeyError fch_id)
            | Some config =>
                let event_length_32 := event_length config in
                let event_length_8 := (event_length_32 * 4)%N in
                let '(packet, f) := read (N.to_nat event_length_8) f in
                modify (with_in_stream (Some f));;
                if decide (N.of_nat (length packet) < event_length_8)%N then
                  raise (RuntimeError
                           ("Tried to read " +:+ pretty event_length_8 +:+
                            " bytes but got " +:+ pretty (length packet)))
                else mret (Some packet, fch_id)
            end
        end
  end.

(** The call [self.event_decoder.decode_packet(packet, self.event_rbkd,
    self.packet_id, fch_id)]: the decoder fills buffers of [event_rbkd] in
    place. *)
Definition call_decode_packet (packet : list byte) (fch_id : Z) : M bool := λ s,
  let '(r, rbkd, dec) :=
    decode_packet packet (event_rbkd s) (packet_id s) fch_id (event_decoder s) in
  (r, with_event_decoder dec (with_event_rbkd rbkd s)).

(** ** [read_packet] *)
Definition read_packet : M bool :=
  '(packet, fch_id) ← read_bytes;
  match packet with
  | None => mret false
  | Some packet =>
      modify (λ s, with_packet_id (packet_id s + 1) s);;
      modify (λ s, with_n_bytes_read (n_bytes_read s + Z.of_nat (length packet)) s);;
      s ← get;
      print ("Read another " +:+ pretty (length packet) +:+
             " bytes; now at " +:+ pretty (n_bytes_read s));;
      full ← call_decode_packet packet fch_id;
      modify (λ s, with_any_full (any_full s || full) s);;
      mret true
  end.

(** ** [close_stream] *)
Definition close_stream : M unit :=
  s ← get;
  match in_stream s with
  | None => raise (RuntimeError "tried to close an unopened stream")
  | Some _ => modify (with_in_stream None)
  end.

(** The call [self.header_decoder.decode_header(self.in_stream)]. *)
Definition call_decode_header : M (Struct * Z) := λ s,
  match in_stream s with
  | None => (inl (OtherError "AttributeError"), s)
  | Some f =>
      let '(r, position, hd) := decode_header f (header_decoder s) in
      (r, with_header_decoder hd (with_in_stream (Some (seek position f)) s))
  end.

(** The call [super().open_stream(...)]. *)
Definition call_base_open_stream (llama_filename : string)
    (rb_lib : option RawBufferLibrary) (buffer_size : Z)
    (chunk_mode out_stream : string) : M unit :=
  match base_open_stream llama_filename rb_lib buffer_size chunk_mode out_stream with
  | inl e => raise e
  | inr lib => modify (with_rb_lib (Some lib))
  end.

(** ** [open_stream]

    After [super().open_stream(...)] the local [rb_lib] names the library
    the base class has worked on: the object passed in, initialised in
    place, or else [self.rb_lib].  Both are the object the base class
    installed, so its keys are read from [self.rb_lib].  The buffer returned
    is the first one of ["LLAMAHeaderDecoder"] in that library when there is
    one; [rb.loc = 1] then writes to that shared buffer.  The [log.warning]
    is not modelled. *)
Definition open_stream (llama_filename : string)
    (rb_lib : option RawBufferLibrary) (buffer_size : Z)
    (chunk_mode out_stream : string) : M (list RawBuffer) :=
  s ← get;
  if in_stream s is Some _ then
    raise (RuntimeError "tried to open stream while previous one still open")
  else
    match open_file llama_filename with
    | inl e => raise e
    | inr data =>
        modify (with_in_stream (Some (mkReader data 0)));;
        modify (with_n_bytes_read 0);;
        modify (with_packet_id 0);;
        '(header, n_bytes_hdr) ← call_decode_header;
        modify (λ s, with_n_bytes_read (n_bytes_read s + n_bytes_hdr) s);;
        modify (λ s, with_event_decoder
                       (set_channel_configs (get_channel_configs (header_decoder s))
                                            (event_decoder s)) s);;
        call_base_open_stream llama_filename rb_lib buffer_size chunk_mode out_stream;;
        s ← get;
        match Streamer.rb_lib s with
        | None => raise (OtherError "TypeError")
        | Some lib =>
            modify (with_event_rbkd (get_keyed_dict <$> lib !! "LLAMAEventDecoder"));;
            match lib !! "LLAMAHeaderDecoder" with
            | Some config_rb_list =>
                match config_rb_list !! 0%nat with
                | None => raise IndexError
                | Some rb =>
                    let rb := set_loc 1 rb in
                    modify (with_rb_lib
                      (Some (<["LLAMAHeaderDecoder" := <[0%nat := rb]> config_rb_list]> lib)));;
                    mret [rb]
                end
            | None => mret [set_loc 1 (new_RawBuffer header)]
            end
        end
    end.

(** ** Reading the model

    The first 32-bit word at the position of the stream, as [__read_bytes]
    decodes it from the four bytes it peeks. *)
Definition leading_word (f : BufferedReader) : Z :=
  default 0 (fromstring_uint32 native (read 4 f).1 !! 0%nat).

(** The message of the [RuntimeError] for a packet cut short. *)
Definition short_read_msg (wanted : N) (got : nat) : string :=
  "Tried to read " +:+ pretty wanted +:+ " bytes but got " +:+ pretty got.

(** ** The driver's view

    The external loop calls [read_packet] as long as it returns [True]. *)
Definition packet_step (s s' : LLAMAStreamer) : Prop :=
  read_packet s = (inr true, s').

(** [n_bytes_read] agrees with the position of the open stream. *)
Definition bytes_accounted (s : LLAMAStreamer) : Prop :=
  ∃ f, in_stream s = Some f ∧ n_bytes_read s = Z.of_nat (offset f).

(** ** [get_decoder_list]: the header decoder first, then the event decoder *)
Definition get_decoder_list : M (list (HeaderDecoder + EventDecoder)) :=
  s ← get;
  let dec_list := [] in
  let dec_list := dec_list ++ [inl (header_decoder s)] in
  let dec_list := dec_list ++ [inr (event_decoder s)] in
  mret dec_list.

(** ** [build_default_rb_lib_XXX]

    [RawBufferLibrary()] is an empty dictionary.  The method returns it
    only from inside the [if]; when the [if] is not taken the body ends
    without a [return], which in Python returns [None].  The [log.warning]
    is not modelled. *)
Definition build_default_rb_lib_XXX (out_stream : string)
    (channel_configs : ChannelConfigs) : M (option RawBufferLibrary) :=
  s ← get;
  let rb_lib : RawBufferLibrary := ∅ in
  let decoders := [event_decoder s] in
  if decide (length decoders = 0)%nat then mret (Some rb_lib)
  else mret None.

(** ** Packets handed over in a run

    [delivered s ps s'] : calling [read_packet] repeatedly from [s] processes
    the packets [ps] (channel id and bytes, as [__read_bytes] returned
    them), each call returning [True], and leaves [s']. *)
Inductive delivered : LLAMAStreamer → list (Z * list byte) → LLAMAStreamer → Prop :=
| delivered_none s : delivered s [] s
| delivered_next s sr s1 sn fch_id packet rest :
    read_bytes s = (inr (Some packet, fch_id), sr) →
    read_packet s = (inr true, s1) →
    delivered s1 rest sn →
    delivered s ((fch_id, packet) :: rest) sn.

End Streamer.

(** ** A concrete set-up

    A small instance of the collaborators, used to run the streamer on
    actual byte streams.  The header is two bytes, a channel id and that
    channel's event length in words; the event decoder files each packet
    under its channel and reports a buffer full from the second record on. *)
Module Scenario.

Record Event : Type := mkEvent {
  ev_channel : Z;
  ev_packet_id : Z;
  ev_bytes : list byte
}.

Definition toy_decode_header (f : BufferedReader) (hd : ChannelConfigs) :
    (exn + ChannelConfigs * Z) * nat * ChannelConfigs :=
  let '(raw, f) := read 2 (seek 0 f) in
  match raw with
  | [c; w] =>
      let configs : ChannelConfigs := {[ byte_val c := mkChannelConfig (Byte.to_N w) ]} in
      (inr (configs, 2), tell f, configs)
  | _ => (inl (RuntimeError "header too short"), tell f, hd)
  end.

Definition toy_decode_packet (packet : list byte) (rbkd : option (list Event))
    (packet_id fch_id : Z) (dec : ChannelConfigs) :
    (exn + bool) * option (list Event) * ChannelConfigs :=
  match rbkd with
  | None => (inl (OtherError "TypeError"), None, dec)
  | Some events =>
      let events := events ++ [mkEvent fch_id packet_id packet] in
      (inr (bool_decide (2 ≤ length events)%nat), Some events, dec)
  end.

Definition payload : list byte := replicate 36 "a"%byte.

Definition packet5 : list byte := ["P"; "000"; "000"; "000"]%byte ++ payload.

(** Header for channel 5 with ten words per event, then two events. *)
Definition run_bin : list byte := ["005"; "010"]%byte ++ packet5 ++ packet5.

(** The same, cut two bytes into a third event. *)
Definition cut_bin : list byte := run_bin ++ ["P"; "000"]%byte.

(** An event of a channel the header does not declare (channel 6). *)
Definition stray_bin : list byte := ["005"; "010"]%byte ++ ["`"; "000"; "000"; "000"]%byte ++ payload.

(** An event of channel 5 that stops after eight bytes. *)
Definition short_bin : list byte := ["005"; "010"]%byte ++ take 8 packet5.

Definition toy_open_file (name : string) : exn + list byte :=
  if decide (name = "run.bin") then inr run_bin
  else if decide (name = "cut.bin") then inr cut_bin
  else if decide (name = "stray.bin") then inr stray_bin
  else if decide (name = "short.bin") then inr short_bin
  else if decide (name = "header.bin") then inr ["005"; "010"]%byte
  else inl (OSError name).

#[export] Instance toy (order : byteorder) : Collaborators := {|
  Struct := ChannelConfigs;
  HeaderDecoder := ChannelConfigs;
  EventDecoder := ChannelConfigs;
  RawBuffer := list Event * Z;
  Rbkd := list Event;
  native := order;
  open_file := toy_open_file;
  new_header_decoder := ∅;
  new_event_decoder := ∅;
  decode_header := toy_decode_header;
  get_channel_configs := id;
  set_channel_configs := λ configs _, configs;
  decode_packet := toy_decode_packet;
  base_open_stream := λ _ rb_lib _ _ _,
    inr (default {[ "LLAMAEventDecoder" := [([], 0)] ]} rb_lib);
  get_keyed_dict := λ bufs, mjoin (fst <$> bufs);
  new_RawBuffer := λ _, ([], 0);
  set_loc := λ n rb, (rb.1, n)
|}.

Definition little : Collaborators := toy LittleEndian.

(** The buffer [open_stream] returns here: the header, marked filled. *)
Definition header_buffers : list (RawBuffer (Collaborators := little)) := [([], 1)].

(** The streamer after [open_stream] on a file. *)
Definition opened (name : string) : LLAMAStreamer (env := little) :=
  (open_stream (env := little) name None 8192 "any_full" EmptyString init).2.

(** ... and after [n] further calls of [read_packet]. *)
Fixpoint after (n : nat) (name : string) : LLAMAStreamer (env := little) :=
  match n with
  | O => opened name
  | S n => (read_packet (env := little) (after n name)).2
  end.

End Scenario.

(** ** Further set-ups

    The same collaborators over a single file given as bytes, and streamer
    objects built directly in the middle of a stream. *)
Module Files.
Import Scenario.

Definition on_file (data : list byte) : Collaborators := {|
  Struct := ChannelConfigs;
  HeaderDecoder := ChannelConfigs;
  EventDecoder := ChannelConfigs;
  RawBuffer := list Event * Z;
  Rbkd := list Event;
  native := LittleEndian;
  open_file := λ _, inr data;
  new_header_decoder := ∅;
  new_event_decoder := ∅;
  decode_header := toy_decode_header;
  get_channel_configs := id;
  set_channel_configs := λ configs _, configs;
  decode_packet := toy_decode_packet;
  base_open_stream := λ _ rb_lib _ _ _,
    inr (default {[ "LLAMAEventDecoder" := [([], 0)] ]} rb_lib);
  get_keyed_dict := λ bufs, mjoin (fst <$> bufs);
  new_RawBuffer := λ _, ([], 0);
  set_loc := λ n rb, (rb.1, n)
|}.

(** A file that stops inside the header. *)
Definition stub : Collaborators := on_file ["005"]%byte.

(** A streamer in the middle of [data], with the given channels, and with
    or without buffers for the event decoder. *)
Definition streaming (configs : ChannelConfigs) (data : list byte) (position : nat)
    (buffers : option (list Event)) : LLAMAStreamer (env := little) :=
  mkStreamer (env := little) (Some (mkReader data position)) buffers configs configs
    None (Z.of_nat position) 0 false [].

Definition channel5 (words : N) : ChannelConfigs := {[ 5 := mkChannelConfig words ]}.

(** The object after [n] calls of [read_packet]. *)
Fixpoint calls (n : nat) (s : LLAMAStreamer (env := little)) :
    LLAMAStreamer (env := little) :=
  match n with
  | O => s
  | S n => (read_packet (env := little) (calls n s)).2
  end.

(** Channel 5 declared with no words at all, in front of one of its packets. *)
Definition stalled : LLAMAStreamer (env := little) :=
  streaming (channel5 0) packet5 0 (Some []).

(** Channel 5 with ten words, behind the header of [run.bin], but without
    buffers: the event decoder raises. *)
Definition unbuffered : LLAMAStreamer (env := little) :=
  streaming (channel5 10) run_bin 2 None.

(** A base class that initialises the library in place: a decoder without
    an entry of its own gets the buffers of the wildcard entry ["*"], which
    is then removed. *)
Definition fill_from_wildcard (name : string)
    (lib : gmap string (list (list Event * Z))) : gmap string (list (list Event * Z)) :=
  match lib !! name, lib !! "*" with
  | None, Some bufs => <[name := bufs]> lib
  | _, _ => lib
  end.

Definition wild : Collaborators := {|
  Struct := ChannelConfigs;
  HeaderDecoder := ChannelConfigs;
  EventDecoder := ChannelConfigs;
  RawBuffer := list Event * Z;
  Rbkd := list Event;
  native := LittleEndian;
  open_file := toy_open_file;
  new_header_decoder := ∅;
  new_event_decoder := ∅;
  decode_header := toy_decode_header;
  get_channel_configs := id;
  set_channel_configs := λ configs _, configs;
  decode_packet := toy_decode_packet;
  base_open_stream := λ _ rb_lib _ _ _,
    inr (delete "*"
           (fill_from_wildcard "LLAMAEventDecoder"
              (fill_from_wildcard "LLAMAHeaderDecoder"
                 (default {[ "LLAMAEventDecoder" := [([], 0)] ]} rb_lib))));
  get_keyed_dict := λ bufs, mjoin (fst <$> bufs);
  new_RawBuffer := λ _, ([], 0);
  set_loc := λ n rb, (rb.1, n)
|}.

(** A library with nothing but a wildcard entry, and the streamer opened
    on [run.bin] with it. *)
Definition wildcard : gmap string (list (RawBuffer (Collaborators := wild))) :=
  {[ "*" := [([], 0)] ]}.

Definition opened_wild : LLAMAStreamer (env := wild) :=
  (open_stream (env := wild) "run.bin" (Some wildcard) 8192 "any_full" EmptyString
     init).2.

Definition wild_buffers : list (RawBuffer (Collaborators := wild)) := [([], 1)].

(** A library whose list for the header decoder is empty. *)
Definition no_header_buffer : gmap string (list (RawBuffer (Collaborators := little))) :=
  {[ "LLAMAHeaderDecoder" := [] ]}.

End Files.

(** * Properties *)

(** ** The transport *)

Lemma read_length (n : nat) (f : BufferedReader) :
  length (read n f).1 = (n `min` available f)%nat.
Proof. unfold read, available; simpl. by rewrite length_take. Qed.

Lemma seek_tell_read (n : nat) (f : BufferedReader) :
  seek (tell f) (read n f).2 = f.
Proof. by destruct f. Qed.


Lemma fromstring_uint32_word (order : byteorder) (data : list byte) :
  length data = 4%nat → ∃ word, fromstring_uint32 order data = [word].
Proof.
  intros Hlen. destruct data as [|b0 [|b1 [|b2 [|b3 [|]]]]]; try discriminate.
  by eexists.
Qed.

#[global] Arguments read : simpl never.
#[global] Arguments seek : simpl never.
#[global] Arguments tell : simpl never.
#[global] Arguments available : simpl never.
#[global] Arguments fromstring_uint32 : simpl never.

Section Properties.
Context {env : Collaborators}.

Abbreviation RawBufferLibrary := (gmap string (list RawBuffer)).

Implicit Types (s : LLAMAStreamer) (f : BufferedReader).

Lemma with_in_stream_id s f : in_stream s = Some f → with_in_stream (Some f) s = s.
Proof. destruct s; simpl; by intros ->. Qed.

Ltac run := unfold mbind, M_bind, mret, M_ret, get, modify, raise, print; cbn.

(** *** [__read_bytes], case by case *)

Lemma read_bytes_closed s :
  in_stream s = None → read_bytes s = (inl (RuntimeError "No stream open!"), s).
Proof. intros Hs. unfold read_bytes. run. by rewrite Hs. Qed.

Lemma read_bytes_eof s f :
  in_stream s = Some f → (available f < 4)%nat →
  read_bytes s = (inr (None, -1), with_in_stream (Some (read 4 f).2) s).
Proof.
  intros Hs Hav. unfold read_bytes. run. rewrite Hs.
  destruct (read 4 f) as [data1 f1] eqn:Hrd. run.
  assert (length data1 = (4 `min` available f)%nat) as Hlen
    by (rewrite <- (read_length 4 f); by rewrite Hrd).
  destruct (decide _) as [|Hge]; [done | lia].
Qed.

Lemma with_in_stream_twice s v v' :
  with_in_stream v (with_in_stream v' s) = with_in_stream v s.
Proof. done. Qed.

Lemma read_bytes_peeked s f :
  in_stream s = Some f → (4 ≤ available f)%nat →
  read_bytes s =
    let fch_id := Z.land (Z.shiftr (leading_word f) 4) 0xfff in
    match get_channel_configs (header_decoder s) !! fch_id with
    | None => (inl (KeyError fch_id), s)
    | Some config =>
        let n := (event_length config * 4)%N in
        let r := read (N.to_nat n) f in
        if decide (N.of_nat (length r.1) < n)%N
        then (inl (RuntimeError (short_read_msg n (length r.1))),
              with_in_stream (Some r.2) s)
        else (inr (Some r.1, fch_id), with_in_stream (Some r.2) s)
    end.
Proof.
  intros Hs Hav. unfold read_bytes, leading_word. run. rewrite Hs.
  pose proof (read_length 4 f) as Hlen.
  pose proof (seek_tell_read 4 f) as Hback.
  destruct (read 4 f) as [data1 f1]; cbn [fst snd] in *.
  destruct (decide _) as [|_]; [lia|].
  destruct (fromstring_uint32_word native data1) as [word ->]; [lia|]. cbn.
  rewrite Hback, with_in_stream_twice, (with_in_stream_id s f Hs).
  destruct (_ !! _) as [config|]; [|done].
  destruct (read _ f) as [packet f2]; cbn.
  by destruct (decide _).
Qed.

(** *** [read_packet], case by case *)

Lemma read_packet_read_error s e s1 :
  read_bytes s = (inl e, s1) → read_packet s = (inl e, s1).
Proof. intros Hrb. unfold read_packet. run. by rewrite Hrb. Qed.

Lemma read_packet_no_packet s fch_id s1 :
  read_bytes s = (inr (None, fch_id), s1) → read_packet s = (inr false, s1).
Proof. intros Hrb. unfold read_packet. run. by rewrite Hrb. Qed.

Lemma read_packet_decoded s packet fch_id s1 :
  read_bytes s = (inr (Some packet, fch_id), s1) →
  read_packet s =
    let s2 := with_n_bytes_read (n_bytes_read s1 + Z.of_nat (length packet))
                (with_packet_id (packet_id s1 + 1) s1) in
    let s3 := with_stdout
                (stdout s2 ++ ["Read another " +:+ pretty (length packet) +:+
                               " bytes; now at " +:+ pretty (n_bytes_read s2)]) s2 in
    let '(r, rbkd, dec) :=
      decode_packet packet (event_rbkd s1) (packet_id s1 + 1) fch_id (event_decoder s1) in
    let s4 := with_event_decoder dec (with_event_rbkd rbkd s3) in
    match r with
    | inl e => (inl e, s4)
    | inr full => (inr true, with_any_full (any_full s1 || full) s4)
    end.
Proof.
  intros Hrb. unfold read_packet, call_decode_packet. run. rewrite Hrb. cbn.
  destruct (decode_packet _ _ _ _ _) as [[[e|full] rbkd] dec]; done.
Qed.

Lemma read_packet_eof s f :
  in_stream s = Some f → (available f < 4)%nat →
  read_packet s = (inr false, with_in_stream (Some (read 4 f).2) s).
Proof. intros Hs Hav. eapply read_packet_no_packet, read_bytes_eof; eauto. Qed.

(** Every way [read_packet] can return a value. *)
Lemma read_packet_returns s f b s' :
  in_stream s = Some f → read_packet s = (inr b, s') →
  (b = false ∧ (available f < 4)%nat) ∨
  (b = true ∧ (4 ≤ available f)%nat ∧
   ∃ config full rbkd dec,
     let fch_id := Z.land (Z.shiftr (leading_word f) 4) 0xfff in
     let r := read (N.to_nat (event_length config * 4)) f in
     get_channel_configs (header_decoder s) !! fch_id = Some config ∧
     length r.1 = N.to_nat (event_length config * 4) ∧
     decode_packet r.1 (event_rbkd s) (packet_id s + 1) fch_id (event_decoder s)
       = (inr full, rbkd, dec) ∧
     s' = with_any_full (any_full s || full)
            (with_event_decoder dec (with_event_rbkd rbkd
              (with_stdout
                 (stdout s ++ ["Read another " +:+ pretty (length r.1) +:+
                    " bytes; now at " +:+ pretty (n_bytes_read s + Z.of_nat (length r.1))])
                 (with_n_bytes_read (n_bytes_read s + Z.of_nat (length r.1))
                    (with_packet_id (packet_id s + 1)
                       (with_in_stream (Some r.2) s))))))).
Proof.
  intros Hs Hrp. destruct (decide (available f < 4)%nat) as [Hlt|Hge].
  - left. rewrite (read_packet_eof s f Hs Hlt) in Hrp. by simplify_eq.
  - right. assert (4 ≤ available f)%nat as Hav by lia.
    pose proof (read_bytes_peeked s f Hs Hav) as Hrb. cbn zeta in Hrb.
    destruct (get_channel_configs (header_decoder s) !! _) as [config|] eqn:Hcfg.
    2: { rewrite (read_packet_read_error _ _ _ Hrb) in Hrp. discriminate. }
    pose proof (read_length (N.to_nat (event_length config * 4)) f) as Hlen.
    destruct (decide _) as [Hshort|Hfull] in Hrb.
    { rewrite (read_packet_read_error _ _ _ Hrb) in Hrp. discriminate. }
    rewrite (read_packet_decoded _ _ _ _ Hrb) in Hrp. cbn in Hrp.
    destruct (decode_packet _ _ _ _ _) as [[[e|full] rbkd] dec] eqn:Hdec;
      [discriminate|].
    simplify_eq. split; [done|]. split; [done|].
    exists config, full, rbkd, dec. cbn zeta.
    repeat split; [done | lia | done].
Qed.

Lemma read_packet_at_end s f :
  in_stream s = Some f → (available f = 0)%nat → read_packet s = (inr false, s).
Proof.
  intros Hs Hav. rewrite (read_packet_eof s f Hs) by lia.
  f_equal. rewrite <- (with_in_stream_id s f Hs) at 2. do 2 f_equal.
  destruct f as [bytes pos]. unfold read, available in *; cbn in *.
  f_equal. rewrite length_take. lia.
Qed.

(** ** The return value of [read_packet] *)

(** C1 (as the code has it): when a packet is processed, [read_packet]
    returns [True] whatever the decoder reported, the "still has data" flag
    of its docstring.  The accumulated buffer-fullness flag is kept in the
    attribute [any_full], which after the call is true exactly when it was
    true before or the decode step reported the channel's buffer full. *)
Theorem read_packet_returns_still_has_data s f b s' :
  in_stream s = Some f → (4 ≤ available f)%nat →
  read_packet s = (inr b, s') →
  b = true ∧
  ∃ config full,
    let fch_id := Z.land (Z.shiftr (leading_word f) 4) 0xfff in
    let packet := (read (N.to_nat (event_length config * 4)) f).1 in
    get_channel_configs (header_decoder s) !! fch_id = Some config ∧
    (decode_packet packet (event_rbkd s) (packet_id s + 1) fch_id
       (event_decoder s)).1.1 = inr full ∧
    any_full s' = any_full s || full.
Proof.
  intros Hs Hav Hrp.
  destruct (read_packet_returns s f b s' Hs Hrp)
    as [[_ Hlt]|(-> & _ & config & full & rbkd & dec & Hcfg & _ & Hdec & ->)];
    [lia|].
  split; [done|]. exists config, full. cbn zeta. by rewrite Hcfg, Hdec.
Qed.

(** C2 (as the code has it): with one to three bytes left at a packet
    boundary, [read_packet] raises nothing and returns [False], the same
    signal as at a clean end of the stream.  No record is deposited and the
    counters keep their values; the stray bytes are consumed, which leaves
    the stream at its end. *)
Theorem read_packet_partial_header_word s f :
  in_stream s = Some f → (1 ≤ available f ≤ 3)%nat →
  read_packet s =
    (inr false, with_in_stream (Some (mkReader (content f) (length (content f)))) s).
Proof.
  intros Hs Hav. rewrite (read_packet_eof s f Hs) by lia.
  do 3 f_equal. unfold read; cbn [snd]. f_equal.
  unfold available in Hav. rewrite length_take, length_drop in *. lia.
Qed.

(** C3: on an open stream with no byte left, [read_packet] raises nothing,
    returns [False] and leaves the whole object as it was: no record
    deposited, [packet_id] and [n_bytes_read] unchanged.  On any open
    stream, returning [False] happens only at the end of the stream, that
    is, with fewer than four bytes left. *)
Theorem read_packet_clean_eof s f :
  in_stream s = Some f → (available f = 0)%nat →
  read_packet s = (inr false, s) ∧
  ∀ s2 f2, in_stream s2 = Some f2 →
    ((read_packet s2).1 = inr false ↔ (available f2 < 4)%nat).
Proof.
  intros Hs Hav. split; [by apply (read_packet_at_end s f)|].
  intros s2 f2 Hs2. split.
  - intros Hret. destruct (read_packet s2) as [r s'] eqn:Hrp; cbn in Hret; subst r.
    destruct (read_packet_returns s2 f2 false s' Hs2 Hrp) as [[_ ?]|[? _]]; done.
  - intros Hlt. by rewrite (read_packet_eof s2 f2 Hs2 Hlt).
Qed.

(** ** The channel id *)

Lemma byte_val_range (b : byte) : 0 ≤ byte_val b < 256.
Proof.
  unfold byte_val. pose proof (Byte.to_N_bounded b) as Hb.
  lia.
Qed.

Lemma uint32_of_range (order : byteorder) (b0 b1 b2 b3 : byte) :
  0 ≤ uint32_of order b0 b1 b2 b3 < 2 ^ 32.
Proof.
  pose proof (byte_val_range b0). pose proof (byte_val_range b1).
  pose proof (byte_val_range b2). pose proof (byte_val_range b3).
  destruct order; cbn [uint32_of le_to_Z]; lia.
Qed.

Lemma leading_word_bytes f :
  (4 ≤ available f)%nat →
  ∃ b0 b1 b2 b3,
    take 4 (drop (offset f) (content f)) = [b0; b1; b2; b3] ∧
    leading_word f = uint32_of native b0 b1 b2 b3.
Proof.
  intros Hav. unfold leading_word.
  pose proof (read_length 4 f) as Hlen. unfold read in *. cbn [fst] in *.
  destruct (take 4 _) as [|b0 [|b1 [|b2 [|b3 [|]]]]]; cbn [length] in Hlen; try lia.
  by exists b0, b1, b2, b3.
Qed.

Lemma channel_bits (word i : Z) :
  0 ≤ i →
  Z.testbit (Z.land (Z.shiftr word 4) 0xfff) i = Z.testbit word (i + 4) && (i <? 12).
Proof.
  intros Hi. rewrite Z.land_spec, Z.shiftr_spec by done. f_equal.
  change 0xfff with (Z.ones 12). destruct (Z.ltb_spec i 12).
  - apply Z.ones_spec_low. lia.
  - apply Z.ones_spec_high. lia.
Qed.

(** C4: the channel id is bits 4 to 15 of the leading 32-bit word of the
    packet, [(word >> 4) & 0xFFF].  This value is the key looked up in the
    channel configurations (an absent key is the [KeyError]) and the
    [fch_id] handed to the event decoder, which files the record under it. *)
Theorem channel_id_is_bits_4_to_15 s f :
  in_stream s = Some f → (4 ≤ available f)%nat →
  ∃ b0 b1 b2 b3,
    let word := uint32_of native b0 b1 b2 b3 in
    let fch_id := Z.land (Z.shiftr word 4) 0xFFF in
    take 4 (drop (offset f) (content f)) = [b0; b1; b2; b3] ∧
    0 ≤ word < 2 ^ 32 ∧
    (∀ i, 0 ≤ i → Z.testbit fch_id i = Z.testbit word (i + 4) && (i <? 12)) ∧
    0 ≤ fch_id < 4096 ∧
    (get_channel_configs (header_decoder s) !! fch_id = None →
     read_packet s = (inl (KeyError fch_id), s)) ∧
    (∀ packet id s1, read_bytes s = (inr (Some packet, id), s1) → id = fch_id) ∧
    (∀ b s', read_packet s = (inr b, s') →
     ∃ config full,
       get_channel_configs (header_decoder s) !! fch_id = Some config ∧
       decode_packet (read (N.to_nat (event_length config * 4)) f).1
         (event_rbkd s) (packet_id s + 1) fch_id (event_decoder s)
       = (inr full, event_rbkd s', event_decoder s')).
Proof.
  intros Hs Hav.
  destruct (leading_word_bytes f Hav) as (b0 & b1 & b2 & b3 & Hbytes & Hword).
  exists b0, b1, b2, b3. cbn zeta.
  split; [done|]. split; [apply uint32_of_range|]. rewrite <- Hword.
  pose proof (read_bytes_peeked s f Hs Hav) as Hrb. cbn zeta in Hrb.
  split; [intros i Hi; by apply channel_bits|]. split.
  { change 0xFFF with (Z.ones 12). rewrite Z.land_ones by lia.
    apply Z.mod_pos_bound. lia. }
  split; [|split].
  - intros Hcfg. rewrite Hcfg in Hrb. by apply read_packet_read_error.
  - intros packet id s1 Hok. rewrite Hok in Hrb.
    destruct (_ !! _); [|discriminate]. destruct (decide _); by simplify_eq.
  - intros b s' Hrp.
    destruct (read_packet_returns s f b s' Hs Hrp)
      as [[_ Hlt]|(-> & _ & config & full & rbkd & dec & Hcfg & _ & Hdec & ->)];
      [lia|].
    exists config, full. by rewrite Hdec.
Qed.

(** ** Peek and rewind *)


(** ** Fatal framing errors *)

(** C6: a packet whose channel id has no entry in the channel
    configurations makes [read_packet] raise the [KeyError] of the failed
    lookup.  The object is left exactly as it was; in particular no record
    reached the buffers and the event decoder was not touched. *)
Theorem unknown_channel_is_fatal s f :
  in_stream s = Some f → (4 ≤ available f)%nat →
  let fch_id := Z.land (Z.shiftr (leading_word f) 4) 0xfff in
  get_channel_configs (header_decoder s) !! fch_id = None →
  ∃ s',
    read_packet s = (inl (KeyError fch_id), s') ∧
    s' = s ∧ event_rbkd s' = event_rbkd s ∧ event_decoder s' = event_decoder s.
Proof.
  intros Hs Hav fch_id Hcfg. exists s. split; [|done].
  apply read_packet_read_error.
  rewrite (read_bytes_peeked s f Hs Hav). cbn zeta. fold fch_id. by rewrite Hcfg.
Qed.

Lemma read_to_end (n : nat) f :
  (1 ≤ available f ≤ n)%nat →
  read n f = (drop (offset f) (content f), mkReader (content f) (length (content f))).
Proof.
  intros Hav. unfold read, available in *. rewrite length_drop in Hav.
  rewrite take_ge by (rewrite length_drop; lia).
  rewrite length_drop. do 2 f_equal. lia.
Qed.

(** C7 (as the code has it): when the header word of the packet can be
    read and the stream holds fewer bytes than the declared length of the
    packet, [event_length * 4], [read_packet] raises the [RuntimeError] of
    the short read.  The buffers and the event decoder are as they were, so
    the decoder never saw the packet; all that changed is the stream, which
    was read to its end. *)
Theorem truncated_packet_is_fatal s f config :
  in_stream s = Some f → (4 ≤ available f)%nat →
  get_channel_configs (header_decoder s)
    !! Z.land (Z.shiftr (leading_word f) 4) 0xfff = Some config →
  (N.of_nat (available f) < event_length config * 4)%N →
  ∃ s',
    read_packet s =
      (inl (RuntimeError (short_read_msg (event_length config * 4) (available f))), s') ∧
    s' = with_in_stream (Some (mkReader (content f) (length (content f)))) s ∧
    event_rbkd s' = event_rbkd s ∧ event_decoder s' = event_decoder s ∧
    packet_id s' = packet_id s ∧ n_bytes_read s' = n_bytes_read s.
Proof.
  intros Hs Hav Hcfg Hshort. eexists. split; [|done].
  apply read_packet_read_error.
  rewrite (read_bytes_peeked s f Hs Hav). cbn zeta. rewrite Hcfg.
  rewrite read_to_end by lia. cbn [fst snd]. fold (available f).
  destruct (decide _) as [|Hge]; [done | lia].
Qed.

(** C10: an exception raised by [__read_bytes] (no open stream, unknown
    channel, short packet) leaves [read_packet] before the counters are
    touched: the exception passes through and [packet_id] and
    [n_bytes_read] have the values from before the call. *)
Theorem read_error_keeps_counters s e s' :
  read_bytes s = (inl e, s') →
  read_packet s = (inl e, s') ∧
  packet_id s' = packet_id s ∧ n_bytes_read s' = n_bytes_read s ∧
  (e = RuntimeError "No stream open!" ∨
   (∃ fch_id, e = KeyError fch_id) ∨
   (∃ wanted got, e = RuntimeError (short_read_msg wanted got))).
Proof.
  intros Hrb. split; [by apply read_packet_read_error|].
  destruct (in_stream s) as [f|] eqn:Hs.
  - destruct (decide (available f < 4)%nat) as [Hlt|Hge].
    { rewrite (read_bytes_eof s f Hs Hlt) in Hrb. discriminate. }
    rewrite (read_bytes_peeked s f Hs) in Hrb by lia. cbn zeta in Hrb.
    destruct (_ !! _) as [config|]; [destruct (decide _)|]; simplify_eq.
    + repeat split; eauto.
    + repeat split; eauto.
  - rewrite (read_bytes_closed s Hs) in Hrb. simplify_eq. repeat split; eauto.
Qed.

(** ** Opening and closing *)

(** C9: [open_stream] on a streamer whose stream is still open raises a
    [RuntimeError] and changes nothing: the open stream, the counters and
    the decoders stay as they are.  [close_stream] on a streamer without an
    open stream raises a [RuntimeError] as well. *)
Theorem open_close_guards s1 s2 (llama_filename : string)
    (rb_lib : option RawBufferLibrary) (buffer_size : Z)
    (chunk_mode out_stream : string) :
  in_stream s1 ≠ None → in_stream s2 = None →
  open_stream llama_filename rb_lib buffer_size chunk_mode out_stream s1
    = (inl (RuntimeError "tried to open stream while previous one still open"), s1) ∧
  close_stream s2 = (inl (RuntimeError "tried to close an unopened stream"), s2).
Proof.
  intros Hopen Hclosed. split.
  - unfold open_stream. run. by destruct (in_stream s1).
  - unfold close_stream. run. by rewrite Hclosed.
Qed.

(** What a successful [open_stream] leaves in the counters: the byte count
    reported by the header decoder and a packet count of zero. *)
Lemma open_stream_header s0 s rbs (llama_filename : string)
    (rb_lib : option RawBufferLibrary) (buffer_size : Z)
    (chunk_mode out_stream : string) :
  open_stream llama_filename rb_lib buffer_size chunk_mode out_stream s0 = (inr rbs, s) →
  ∃ data header n_bytes_hdr position hd,
    open_file llama_filename = inr data ∧
    decode_header (mkReader data 0) (header_decoder s0)
      = (inr (header, n_bytes_hdr), position, hd) ∧
    in_stream s = Some (mkReader data position) ∧
    n_bytes_read s = n_bytes_hdr ∧
    packet_id s = 0.
Proof.
  unfold open_stream, call_decode_header, call_base_open_stream. run.
  intros Hopen. destruct (in_stream s0); [discriminate|].
  destruct (open_file llama_filename) as [e|data]; [discriminate|]. cbn in Hopen.
  destruct (decode_header _ _) as [[[e|[header n_bytes_hdr]] position] hd] eqn:Hhdr;
    [discriminate|].
  exists data, header, n_bytes_hdr, position, hd.
  split; [done|]. split; [exact Hhdr|]. cbn in Hopen.
  repeat (case_match; simplify_eq; cbn in *; try done).
Qed.

(** ** Counting bytes and packets *)

Lemma packet_step_accounting a b :
  packet_step a b →
  ∃ f config,
    let n := N.to_nat (event_length config * 4) in
    in_stream a = Some f ∧ (n ≤ available f)%nat ∧ (4 ≤ available f)%nat ∧
    get_channel_configs (header_decoder a)
      !! Z.land (Z.shiftr (leading_word f) 4) 0xfff = Some config ∧
    in_stream b = Some (mkReader (content f) (offset f + n)) ∧
    n_bytes_read b = n_bytes_read a + Z.of_N (event_length config * 4) ∧
    packet_id b = packet_id a + 1.
Proof.
  unfold packet_step. intros Hrp. destruct (in_stream a) as [f|] eqn:Ha.
  2: { rewrite (read_packet_read_error _ _ _ (read_bytes_closed a Ha)) in Hrp.
       discriminate. }
  destruct (read_packet_returns a f true b Ha Hrp)
    as [[? _]|(_ & Hav & config & full & rbkd & dec & Hcfg & Hlen & _ & ->)];
    [done|].
  exists f, config. cbn zeta. pose proof (read_length (N.to_nat (event_length config * 4)) f).
  repeat split; [lia | done | done | | cbn; lia].
  cbn. f_equal. rewrite <- Hlen at 2. by destruct f.
Qed.

Lemma packet_steps_accounting n s sn f0 :
  nsteps packet_step n s sn →
  in_stream s = Some f0 → n_bytes_read s = Z.of_nat (offset f0) →
  packet_id sn = packet_id s + Z.of_nat n ∧
  ∃ fn, in_stream sn = Some fn ∧ content fn = content f0 ∧
        n_bytes_read sn = Z.of_nat (offset fn).
Proof.
  intros Hrun. revert f0. induction Hrun as [s|n s s1 sn Hstep _ IH]; intros f0 Hs Hacc.
  - split; [lia|]. by exists f0.
  - destruct (packet_step_accounting _ _ Hstep)
      as (f & config & Hf & _ & _ & _ & Hs1 & Hbytes & Hid).
    cbn zeta in *. simplify_eq.
    destruct (IH _ Hs1) as [Hpid (fn & Hfn & Hcontent & Hn)]; [cbn; lia|].
    split; [lia|]. by exists fn.
Qed.

(** C8: each call of [read_packet] that returns [True] adds the declared
    length of the packet, [event_length * 4], to [n_bytes_read] and one to
    [packet_id].  [open_stream] starts [n_bytes_read] at the byte count of
    the header and [packet_id] at zero.  Hence, when the header decoder
    reported the bytes it consumed, [n_bytes_read] follows the position of
    the stream through any number of packets, [packet_id] counts them, and
    when the stream ends exactly behind the last packet the next call
    returns [False] with [n_bytes_read] equal to the length of the whole
    stream. *)
Theorem n_bytes_read_accounts_for_stream s0 rbs s n sn
    (llama_filename : string) (rb_lib : option RawBufferLibrary)
    (buffer_size : Z) (chunk_mode out_stream : string) :
  open_stream llama_filename rb_lib buffer_size chunk_mode out_stream s0 = (inr rbs, s) →
  bytes_accounted s →
  nsteps packet_step n s sn →
  (∀ a b, packet_step a b →
     ∃ f config,
       in_stream a = Some f ∧
       get_channel_configs (header_decoder a)
         !! Z.land (Z.shiftr (leading_word f) 4) 0xfff = Some config ∧
       n_bytes_read b = n_bytes_read a + Z.of_N (event_length config) * 4 ∧
       packet_id b = packet_id a + 1) ∧
  ∃ data header n_bytes_hdr position hd fn,
    open_file llama_filename = inr data ∧
    decode_header (mkReader data 0) (header_decoder s0)
      = (inr (header, n_bytes_hdr), position, hd) ∧
    n_bytes_read s = n_bytes_hdr ∧
    packet_id sn = Z.of_nat n ∧
    in_stream sn = Some fn ∧ content fn = data ∧
    n_bytes_read sn = Z.of_nat (offset fn) ∧
    (offset fn = length data →
     read_packet sn = (inr false, sn) ∧
     n_bytes_read sn = Z.of_nat (length data)).
Proof.
  intros Hopen (f0 & Hs & Hacc) Hrun. split.
  { intros a b Hstep.
    destruct (packet_step_accounting _ _ Hstep)
      as (f & config & Hf & _ & _ & Hcfg & _ & Hbytes & Hid).
    exists f, config. repeat split; [done | done | lia | done]. }
  destruct (open_stream_header _ _ _ _ _ _ _ _ Hopen)
    as (data & header & n_bytes_hdr & position & hd & Hfile & Hhdr & Hs' & Hn0 & Hp0).
  destruct (packet_steps_accounting n s sn f0 Hrun Hs Hacc)
    as [Hpid (fn & Hfn & Hcontent & Hn)].
  assert (content fn = data) as Hdata by (rewrite Hcontent; by simplify_eq).
  exists data, header, n_bytes_hdr, position, hd, fn.
  do 7 (split; [done || lia|]). intros Hend. split; [|lia].
  apply (read_packet_at_end sn fn Hfn). unfold available.
  rewrite length_drop, Hdata. lia.
Qed.

End Properties.

(** * The properties on actual streams *)

Import Scenario.

(** A call is evaluated through its result; the object it leaves is the
    second component of the call. *)
Lemma returned {A B : Type} (p : A * B) (a : A) (b : B) :
  p.1 = a → b = p.2 → p = (a, b).
Proof. destruct p; simpl; by intros -> ->. Qed.

Lemma opened_eq (name : string) :
  opened name = (open_stream (env := little) name None 8192 "any_full" EmptyString init).2.
Proof. reflexivity. Qed.

Lemma after_S (n : nat) (name : string) :
  after (S n) name = (read_packet (after n name)).2.
Proof. reflexivity. Qed.

Ltac evaluate := vm_compute; reflexivity.

(** C1, refuted as stated: on the first packet of [run.bin] no buffer was
    reported full before, the decoder reports its buffer not full, the
    accumulated flag stays false, and [read_packet] still returns [True]. *)
Lemma read_packet_return_is_not_fullness :
  any_full (opened "run.bin") = false ∧
  (decode_packet packet5 (event_rbkd (opened "run.bin")) 1 5
     (event_decoder (opened "run.bin"))).1.1 = inr false ∧
  (read_packet (opened "run.bin")).1 = inr true ∧
  any_full (read_packet (opened "run.bin")).2 = false.
Proof. split; [evaluate|]. split; [evaluate|]. split; evaluate. Qed.

Lemma read_packet_returns_still_has_data_witness :
  ∃ full : bool,
    any_full (after 1 "run.bin") = any_full (after 0 "run.bin") || full.
Proof.
  destruct (read_packet_returns_still_has_data (after 0 "run.bin")
              (mkReader run_bin 2) true (after 1 "run.bin"))
    as [_ (config & full & _ & _ & Hany)].
  - evaluate.
  - vm_compute; lia.
  - exact (returned (read_packet (after 0 "run.bin")) (inr true)
             (after 1 "run.bin") ltac:(evaluate) (after_S 0 "run.bin")).
  - by exists full.
Defined.

(** C2, refuted as stated: [cut.bin] ends two bytes into a third packet;
    the third call returns [False] and raises nothing. *)
Lemma partial_header_word_is_not_an_error :
  (available <$> in_stream (after 2 "cut.bin")) = Some 2%nat ∧
  (read_packet (after 2 "cut.bin")).1 = inr false ∧
  ∀ e, (read_packet (after 2 "cut.bin")).1 ≠ inl e.
Proof.
  assert ((read_packet (after 2 "cut.bin")).1 = inr false) as Hret by evaluate.
  split; [evaluate|]. split; [exact Hret|]. intros e. rewrite Hret. discriminate.
Qed.

Lemma read_packet_partial_header_word_witness :
  read_packet (after 2 "cut.bin") =
    (inr false,
     with_in_stream
       (Some (mkReader (content (mkReader cut_bin 82))
                       (length (content (mkReader cut_bin 82)))))
       (after 2 "cut.bin")).
Proof.
  apply (read_packet_partial_header_word (after 2 "cut.bin") (mkReader cut_bin 82)).
  - evaluate.
  - vm_compute; lia.
Defined.

Lemma read_packet_clean_eof_witness :
  read_packet (after 2 "run.bin") = (inr false, after 2 "run.bin") ∧
  ∀ s2 f2, in_stream s2 = Some f2 →
    ((read_packet (env := little) s2).1 = inr false ↔ (available f2 < 4)%nat).
Proof.
  apply (read_packet_clean_eof (after 2 "run.bin") (mkReader run_bin 82)).
  - evaluate.
  - evaluate.
Defined.

Lemma channel_id_is_bits_4_to_15_witness :
  ∃ b0 b1 b2 b3 : byte,
    take 4 (drop (offset (mkReader run_bin 2)) (content (mkReader run_bin 2)))
      = [b0; b1; b2; b3] ∧
    5 = Z.land (Z.shiftr (uint32_of (native (Collaborators := little)) b0 b1 b2 b3) 4)
          0xFFF.
Proof.
  destruct (channel_id_is_bits_4_to_15 (after 0 "run.bin") (mkReader run_bin 2))
    as (b0 & b1 & b2 & b3 & Hbytes & _ & _ & _ & _ & Hid & _).
  - evaluate.
  - vm_compute; lia.
  - exists b0, b1, b2, b3.
    exact (conj Hbytes
             (Hid packet5 5 (read_bytes (after 0 "run.bin")).2
                (returned (read_bytes (after 0 "run.bin")) (inr (Some packet5, 5))
                   (read_bytes (after 0 "run.bin")).2 ltac:(evaluate) eq_refl))).
Defined.


Lemma unknown_channel_is_fatal_witness :
  ∃ s', read_packet (after 0 "stray.bin")
          = (inl (KeyError
                    (Z.land (Z.shiftr (leading_word (env := little)
                                         (mkReader stray_bin 2)) 4) 0xfff)),
             s') ∧
        s' = after 0 "stray.bin" ∧
        event_rbkd s' = event_rbkd (after 0 "stray.bin") ∧
        event_decoder s' = event_decoder (after 0 "stray.bin").
Proof.
  apply (unknown_channel_is_fatal (after 0 "stray.bin") (mkReader stray_bin 2)).
  - evaluate.
  - vm_compute; lia.
  - evaluate.
Defined.

(** C7, refuted as stated: [cut.bin] ends two bytes into a third packet
    of channel 5, whose declared length of 40 bytes exceeds the two bytes
    left; the call returns [False] instead of raising. *)
Lemma packet_cut_in_header_word_returns_false :
  drop 82 cut_bin = take 2 packet5 ∧
  (available <$> in_stream (after 2 "cut.bin")) = Some 2%nat ∧
  get_channel_configs (header_decoder (after 2 "cut.bin")) !! 5
    = Some (mkChannelConfig 10) ∧
  (2 < event_length (mkChannelConfig 10) * 4)%N ∧
  (read_packet (after 2 "cut.bin")).1 = inr false.
Proof.
  split; [evaluate|]. split; [evaluate|]. split; [evaluate|].
  split; [reflexivity | evaluate].
Qed.

Lemma truncated_packet_is_fatal_witness :
  ∃ s', read_packet (after 0 "short.bin")
          = (inl (RuntimeError
                    (short_read_msg (event_length (mkChannelConfig 10) * 4)
                                    (available (mkReader short_bin 2)))),
             s') ∧
        s' = with_in_stream
               (Some (mkReader (content (mkReader short_bin 2))
                               (length (content (mkReader short_bin 2)))))
               (after 0 "short.bin") ∧
        event_rbkd s' = event_rbkd (after 0 "short.bin") ∧
        event_decoder s' = event_decoder (after 0 "short.bin") ∧
        packet_id s' = packet_id (after 0 "short.bin") ∧
        n_bytes_read s' = n_bytes_read (after 0 "short.bin").
Proof.
  apply (truncated_packet_is_fatal (after 0 "short.bin") (mkReader short_bin 2)
           (mkChannelConfig 10)).
  - evaluate.
  - vm_compute; lia.
  - evaluate.
  - vm_compute. reflexivity.
Defined.

Lemma n_bytes_read_accounts_for_stream_witness :
  ∃ data fn,
    open_file (Collaborators := little) "run.bin" = inr data ∧
    packet_id (after 2 "run.bin") = Z.of_nat 2 ∧
    in_stream (after 2 "run.bin") = Some fn ∧ content fn = data ∧
    (offset fn = length data →
     read_packet (after 2 "run.bin") = (inr false, after 2 "run.bin") ∧
     n_bytes_read (after 2 "run.bin") = Z.of_nat (length data)).
Proof.
  destruct (n_bytes_read_accounts_for_stream init header_buffers (opened "run.bin")
              2 (after 2 "run.bin") "run.bin" None 8192 "any_full" EmptyString)
    as [_ (data & _ & _ & _ & _ & fn & Hfile & _ & _ & Hid & Hfn & Hdata & _ & Hend)].
  - exact (returned (open_stream "run.bin" None 8192 "any_full" EmptyString init)
             (inr header_buffers) (opened "run.bin") ltac:(evaluate)
             (opened_eq "run.bin")).
  - exists (mkReader run_bin 2). split; [evaluate | evaluate].
  - apply (nsteps_l _ _ _ (after 1 "run.bin")).
    { exact (returned (read_packet (after 0 "run.bin")) (inr true)
               (after 1 "run.bin") ltac:(evaluate) (after_S 0 "run.bin")). }
    apply (nsteps_l _ _ _ (after 2 "run.bin")).
    { exact (returned (read_packet (after 1 "run.bin")) (inr true)
               (after 2 "run.bin") ltac:(evaluate) (after_S 1 "run.bin")). }
    apply nsteps_O.
  - exists data, fn.
    exact (conj Hfile (conj Hid (conj Hfn (conj Hdata Hend)))).
Defined.

Lemma open_close_guards_witness :
  open_stream "run.bin" None 8192 "any_full" EmptyString (after 1 "run.bin")
    = (inl (RuntimeError "tried to open stream while previous one still open"),
       after 1 "run.bin") ∧
  close_stream (init (env := little))
    = (inl (RuntimeError "tried to close an unopened stream"), init).
Proof.
  apply (open_close_guards (after 1 "run.bin") init).
  - assert (in_stream (after 1 "run.bin") = Some (mkReader run_bin 42)) as ->
      by evaluate.
    discriminate.
  - reflexivity.
Defined.

Lemma read_error_keeps_counters_witness :
  read_packet (after 0 "stray.bin")
    = (inl (KeyError 6), (read_bytes (after 0 "stray.bin")).2) ∧
  packet_id (read_bytes (after 0 "stray.bin")).2 = packet_id (after 0 "stray.bin") ∧
  n_bytes_read (read_bytes (after 0 "stray.bin")).2
    = n_bytes_read (after 0 "stray.bin") ∧
  (KeyError 6 = RuntimeError "No stream open!" ∨
   (∃ fch_id, KeyError 6 = KeyError fch_id) ∨
   (∃ wanted got, KeyError 6 = RuntimeError (short_read_msg wanted got))).
Proof.
  apply (read_error_keeps_counters (after 0 "stray.bin") (KeyError 6)
           (read_bytes (after 0 "stray.bin")).2).
  exact (returned (read_bytes (after 0 "stray.bin")) (inl (KeyError 6))
           (read_bytes (after 0 "stray.bin")).2 ltac:(evaluate) eq_refl).
Defined.

(** * Further properties of the streamer *)

Section Lifecycle.
Context {env : Collaborators}.

Abbreviation RawBufferLibrary := (gmap string (list RawBuffer)).

Implicit Types (s : LLAMAStreamer) (f : BufferedReader).

Ltac run := unfold mbind, M_bind, mret, M_ret, get, modify, raise, print; cbn.

Lemma available_after_read (n : nat) f :
  available (read n f).2 = (available f - n)%nat.
Proof.
  unfold read, available; cbn [snd content offset].
  rewrite !length_drop, length_take, length_drop. lia.
Qed.

Lemma read_packet_closed s :
  in_stream s = None → read_packet s = (inl (RuntimeError "No stream open!"), s).
Proof. intros Hs. by apply read_packet_read_error, read_bytes_closed. Qed.

(** What any call of [read_packet] leaves alone, whether it returns or
    raises. *)
Lemma read_packet_frame s r s' :
  read_packet s = (r, s') →
  header_decoder s' = header_decoder s ∧ rb_lib s' = rb_lib s ∧
  (any_full s = true → any_full s' = true) ∧
  packet_id s ≤ packet_id s' ≤ packet_id s + 1 ∧
  n_bytes_read s ≤ n_bytes_read s' ∧
  (in_stream s = None → in_stream s' = None) ∧
  (∀ f, in_stream s = Some f →
     ∃ f', in_stream s' = Some f' ∧ content f' = content f ∧
           (offset f ≤ offset f')%nat).
Proof.
  intros Hrp. destruct (in_stream s) as [f|] eqn:Hs.
  2: { rewrite (read_packet_closed s Hs) in Hrp. simplify_eq.
       repeat split; (done || lia). }
  assert (∀ n, ∃ f', Some (read n f).2 = Some f' ∧ content f' = content f ∧
                     (offset f ≤ offset f')%nat) as Hread.
  { intros n. exists (read n f).2. split; [done|]. split; [done|].
    unfold read; cbn. lia. }
  destruct (decide (available f < 4)%nat) as [Hlt|Hge].
  { rewrite (read_packet_eof s f Hs Hlt) in Hrp. simplify_eq. cbn.
    repeat split; try (done || lia). intros f0 ?; simplify_eq. apply Hread. }
  pose proof (read_bytes_peeked s f Hs ltac:(lia)) as Hrb. cbn zeta in Hrb.
  destruct (get_channel_configs (header_decoder s) !! _) as [config|].
  2: { rewrite (read_packet_read_error _ _ _ Hrb) in Hrp. simplify_eq.
       repeat split; try (done || lia). intros f0 ?; simplify_eq.
       exists f0. by rewrite Hs. }
  destruct (decide _) as [Hshort|Hfull] in Hrb.
  { rewrite (read_packet_read_error _ _ _ Hrb) in Hrp. simplify_eq. cbn.
    repeat split; try (done || lia). intros f0 ?; simplify_eq. apply Hread. }
  rewrite (read_packet_decoded _ _ _ _ Hrb) in Hrp. cbn in Hrp.
  destruct (decode_packet _ _ _ _ _) as [[[e|full] rbkd] dec]; simplify_eq; cbn.
  - repeat split; try (done || lia). intros f0 ?; simplify_eq. apply Hread.
  - repeat split; try (done || lia).
    + intros ->. done.
    + intros f0 ?; simplify_eq. apply Hread.
Qed.

(** ** Closing *)

(** X1: [close_stream] on a streamer with an open stream returns and only
    forgets the stream: the counters, the flag and the buffers stay.
    Afterwards [read_packet] raises ["No stream open!"] and a second
    [close_stream] raises, both leaving the object as it is. *)
Theorem close_stream_then_unusable s f :
  in_stream s = Some f →
  ∃ s1,
    close_stream s = (inr tt, s1) ∧ s1 = with_in_stream None s ∧
    n_bytes_read s1 = n_bytes_read s ∧ packet_id s1 = packet_id s ∧
    any_full s1 = any_full s ∧ event_rbkd s1 = event_rbkd s ∧
    read_packet s1 = (inl (RuntimeError "No stream open!"), s1) ∧
    close_stream s1 = (inl (RuntimeError "tried to close an unopened stream"), s1).
Proof.
  intros Hs. exists (with_in_stream None s).
  split; [unfold close_stream; run; by rewrite Hs|].
  do 5 (split; [done|]). split.
  - by apply read_packet_closed.
  - unfold close_stream. by run.
Qed.

(** ** Opening *)

(** X2: when the file cannot be opened, [open_stream] passes on the
    exception of [open] and leaves the object untouched: no stream, the
    counters as they were. *)
Theorem open_stream_missing_file s0 e (llama_filename : string)
    (rb_lib : option RawBufferLibrary) (buffer_size : Z)
    (chunk_mode out_stream : string) :
  in_stream s0 = None → open_file llama_filename = inl e →
  open_stream llama_filename rb_lib buffer_size chunk_mode out_stream s0 = (inl e, s0).
Proof.
  intros Hs Hfile. unfold open_stream. run. by rewrite Hs, Hfile.
Qed.

(** X3: when the header decoder raises, [open_stream] passes the exception
    on with the file already stored in [in_stream] and both counters reset
    to zero.  The stream counts as open: any further [open_stream] raises
    ["tried to open stream while previous one still open"]. *)
Theorem open_stream_bad_header_stays_open s0 data e (llama_filename : string)
    (rb_lib : option RawBufferLibrary) (buffer_size : Z)
    (chunk_mode out_stream : string) :
  in_stream s0 = None → open_file llama_filename = inr data →
  (decode_header (mkReader data 0) (header_decoder s0)).1.1 = inl e →
  ∃ s1,
    open_stream llama_filename rb_lib buffer_size chunk_mode out_stream s0 = (inl e, s1) ∧
    in_stream s1
      = Some (mkReader data (decode_header (mkReader data 0) (header_decoder s0)).1.2) ∧
    n_bytes_read s1 = 0 ∧ packet_id s1 = 0 ∧
    ∀ (name' : string) (lib' : option RawBufferLibrary) (size' : Z) (mode' out' : string),
      open_stream name' lib' size' mode' out' s1
      = (inl (RuntimeError "tried to open stream while previous one still open"), s1).
Proof.
  intros Hs Hfile Hhdr. unfold open_stream at 1, call_decode_header. run.
  rewrite Hs, Hfile. cbn.
  destruct (decode_header _ _) as [[r position] hd]. cbn in Hhdr. subst r. cbn.
  eexists. split; [done|]. cbn. do 3 (split; [done|]).
  intros. unfold open_stream. by run.
Qed.

(** X4: a successful [open_stream] started without an open stream, returns
    exactly one buffer, marked filled ([loc = 1]), and hands the channel
    configurations of the header decoder to the event decoder.  The keys
    are read from the library as the base class left it: [event_rbkd] is
    the keyed dict of its entry ["LLAMAEventDecoder"], or [None] without
    such an entry, and the buffer returned is the first one of its entry
    ["LLAMAHeaderDecoder"], or a new buffer around the header without such
    an entry. *)
Theorem open_stream_returns_one_buffer s0 rbs s (llama_filename : string)
    (rb_lib : option RawBufferLibrary) (buffer_size : Z)
    (chunk_mode out_stream : string) :
  open_stream llama_filename rb_lib buffer_size chunk_mode out_stream s0 = (inr rbs, s) →
  in_stream s0 = None ∧
  (∃ rb, rbs = [set_loc 1 rb]) ∧
  event_decoder s
    = set_channel_configs (get_channel_configs (header_decoder s)) (event_decoder s0) ∧
  ∃ data header n_bytes_hdr position hd installed,
    open_file llama_filename = inr data ∧
    decode_header (mkReader data 0) (header_decoder s0)
      = (inr (header, n_bytes_hdr), position, hd) ∧
    base_open_stream llama_filename rb_lib buffer_size chunk_mode out_stream
      = inr installed ∧
    event_rbkd s = get_keyed_dict <$> installed !! "LLAMAEventDecoder" ∧
    match installed !! "LLAMAHeaderDecoder" with
    | Some config_rb_list =>
        ∃ rb, config_rb_list !! 0%nat = Some rb ∧ rbs = [set_loc 1 rb]
    | None => rbs = [set_loc 1 (new_RawBuffer header)]
    end.
Proof.
  unfold open_stream, call_decode_header, call_base_open_stream. run.
  intros Hopen. destruct (in_stream s0); [discriminate|]. split; [done|].
  destruct (open_file llama_filename) as [e|data]; [discriminate|]. cbn in Hopen.
  destruct (decode_header _ _) as [[[e|[header n_bytes_hdr]] position] hd] eqn:Hhdr;
    [discriminate|]. cbn in Hopen.
  destruct (base_open_stream _ _ _ _ _) as [e|installed]; [discriminate|].
  cbn in Hopen.
  destruct (installed !! "LLAMAHeaderDecoder") as [[|rb rest]|] eqn:Hlist;
    cbn in Hopen; simplify_eq; cbn.
  - split; [by eexists|]. split; [done|].
    exists data, header, n_bytes_hdr, position, hd, installed.
    rewrite Hlist. do 4 (split; [done|]). by exists rb.
  - split; [by eexists|]. split; [done|].
    exists data, header, n_bytes_hdr, position, hd, installed.
    rewrite Hlist. by do 4 (split; [done|]).
Qed.

(** X5: when the library, as the base class left it, has an empty list
    for ["LLAMAHeaderDecoder"], [open_stream] fails every time: it never
    returns.  Once the header is decoded, the failure is the [IndexError]
    of [config_rb_list[0]], raised with the stream left open. *)
Theorem open_stream_empty_header_list s0 installed (llama_filename : string)
    (rb_lib : option RawBufferLibrary) (buffer_size : Z)
    (chunk_mode out_stream : string) :
  base_open_stream llama_filename rb_lib buffer_size chunk_mode out_stream
    = inr installed →
  installed !! "LLAMAHeaderDecoder" = Some [] →
  (∀ rbs s,
     open_stream llama_filename rb_lib buffer_size chunk_mode out_stream s0
       ≠ (inr rbs, s)) ∧
  (∀ data header n_bytes_hdr position hd,
     in_stream s0 = None → open_file llama_filename = inr data →
     decode_header (mkReader data 0) (header_decoder s0)
       = (inr (header, n_bytes_hdr), position, hd) →
     ∃ s1,
       open_stream llama_filename rb_lib buffer_size chunk_mode out_stream s0
         = (inl IndexError, s1) ∧
       in_stream s1 = Some (mkReader data position)).
Proof.
  intros Hbase Hlist. split.
  - intros rbs s. unfold open_stream, call_decode_header, call_base_open_stream. run.
    destruct (in_stream s0); [discriminate|].
    destruct (open_file llama_filename) as [e|data]; [discriminate|]. cbn.
    destruct (decode_header _ _) as [[[e|[header n_bytes_hdr]] position] hd];
      [discriminate|]. cbn.
    rewrite Hbase. cbn. rewrite Hlist. discriminate.
  - intros data header n_bytes_hdr position hd Hs Hfile Hhdr.
    unfold open_stream, call_decode_header, call_base_open_stream. run.
    rewrite Hs, Hfile. cbn. rewrite Hhdr. cbn. rewrite Hbase. cbn. rewrite Hlist.
    by eexists.
Qed.

(** ** Reading packets *)

(** X6: when the event decoder raises, [read_packet] passes the exception
    on after the counters were advanced: [packet_id] is one more,
    [n_bytes_read] has grown by the packet length and the stream stands
    behind the packet, while [any_full] keeps its value.  The buffers are
    as the decoder left them. *)
Theorem decoder_error_after_counting s f config e :
  in_stream s = Some f → (4 ≤ available f)%nat →
  let fch_id := Z.land (Z.shiftr (leading_word f) 4) 0xfff in
  let size := N.to_nat (event_length config * 4) in
  let outcome :=
    decode_packet (read size f).1 (event_rbkd s) (packet_id s + 1) fch_id
      (event_decoder s) in
  get_channel_configs (header_decoder s) !! fch_id = Some config →
  (size ≤ available f)%nat →
  outcome.1.1 = inl e →
  ∃ s',
    read_packet s = (inl e, s') ∧
    packet_id s' = packet_id s + 1 ∧
    n_bytes_read s' = n_bytes_read s + Z.of_nat size ∧
    in_stream s' = Some (mkReader (content f) (offset f + size)) ∧
    any_full s' = any_full s ∧
    event_rbkd s' = outcome.1.2 ∧ event_decoder s' = outcome.2.
Proof.
  intros Hs Hav fch_id size outcome Hcfg Hsize Hdec.
  pose proof (read_bytes_peeked s f Hs Hav) as Hrb. cbn zeta in Hrb.
  fold fch_id in Hrb. rewrite Hcfg in Hrb. fold size in Hrb.
  pose proof (read_length size f) as Hlen.
  destruct (decide _) as [Hshort|_] in Hrb; [lia|].
  rewrite (read_packet_decoded _ _ _ _ Hrb). cbn.
  fold outcome. destruct outcome as [[r rbkd] dec]. cbn in Hdec. subst r.
  eexists. split; [done|]. cbn.
  split; [done|]. split; [lia|]. split; [|done].
  f_equal. unfold read; cbn [snd]. f_equal. fold (available f).
  change (take size (drop (offset f) (content f))) with (read size f).1. lia.
Qed.

(** X7: a channel configured with [event_length = 0] stalls the stream.
    A call of [read_packet] on its header word hands the decoder an empty
    packet and returns [True], unless the decoder raises, in which case its
    exception is passed on.  Either way the call counts a packet but reads
    nothing: the stream stays at the same header word and [n_bytes_read]
    does not grow.  So through any number of calls that return [True] the
    stream does not move, and the next call never returns [False]. *)
Theorem zero_length_event_stalls s f config n sn :
  in_stream s = Some f → (4 ≤ available f)%nat →
  let fch_id := Z.land (Z.shiftr (leading_word f) 4) 0xfff in
  get_channel_configs (header_decoder s) !! fch_id = Some config →
  event_length config = 0%N →
  (∃ s',
     read_packet s
       = (match (decode_packet [] (event_rbkd s) (packet_id s + 1) fch_id
                   (event_decoder s)).1.1 with
          | inl e => inl e
          | inr _ => inr true
          end, s') ∧
     in_stream s' = Some f ∧
     n_bytes_read s' = n_bytes_read s ∧
     packet_id s' = packet_id s + 1 ∧
     get_channel_configs (header_decoder s') = get_channel_configs (header_decoder s)) ∧
  (nsteps packet_step n s sn →
   in_stream sn = Some f ∧
   n_bytes_read sn = n_bytes_read s ∧
   packet_id sn = packet_id s + Z.of_nat n ∧
   (read_packet sn).1 ≠ inr false).
Proof.
  intros Hs Hav fch_id Hcfg Hzero. split.
  - pose proof (read_bytes_peeked s f Hs Hav) as Hrb. cbn zeta in Hrb.
    fold fch_id in Hrb. rewrite Hcfg, Hzero in Hrb.
    change (N.to_nat (0 * 4)) with 0%nat in Hrb.
    assert (read 0 f = ([], f)) as Hread.
    { unfold read. rewrite take_0. cbn. destruct f. cbn. by rewrite Nat.add_0_r. }
    rewrite Hread in Hrb. cbn in Hrb.
    rewrite (with_in_stream_id s f Hs) in Hrb.
    rewrite (read_packet_decoded _ _ _ _ Hrb). cbn.
    destruct (decode_packet _ _ _ _ _) as [[[e|full] rbkd] dec]; cbn.
    + eexists. split; [done|]. cbn. repeat split; (done || lia).
    + eexists. split; [done|]. cbn. repeat split; (done || lia).
  - intros Hrun.
    assert (in_stream sn = Some f ∧ header_decoder sn = header_decoder s ∧
            n_bytes_read sn = n_bytes_read s ∧
            packet_id sn = packet_id s + Z.of_nat n) as (Hsn & _ & Hbytes & Hid).
    { clear Hav. unfold fch_id in Hcfg. clear fch_id.
      induction Hrun as [s|n s s1 sn Hstep _ IH].
      - repeat split; (done || lia).
      - destruct (packet_step_accounting _ _ Hstep)
          as (f1 & config1 & Hf1 & _ & _ & Hcfg1 & Hs1 & Hbytes1 & Hid1).
        cbn zeta in *. assert (f1 = f) as -> by congruence.
        assert (config1 = config) as -> by congruence.
        rewrite Hzero in Hs1, Hbytes1.
        destruct (read_packet_frame _ _ _ Hstep) as (Hhd & _).
        destruct IH as (Hsn & Hhdn & Hbn & Hidn).
        + rewrite Hs1. destruct f. cbn. by rewrite Nat.add_0_r.
        + by rewrite Hhd.
        + rewrite Hhdn, Hbn, Hidn. repeat split; (done || lia). }
    repeat split; [done | done | done |].
    destruct (read_packet sn) as [r s'] eqn:Hrp. cbn. intros ->.
    destruct (read_packet_returns sn f false s' Hsn Hrp) as [[_ ?]|[? _]];
      [lia | done].
Qed.

(** X8: the end of the stream is final.  Once [read_packet] has returned
    [False], the object it left makes every further call return [False]
    again and change nothing. *)
Theorem end_of_stream_is_final s s' :
  read_packet s = (inr false, s') →
  read_packet s' = (inr false, s').
Proof.
  intros Hrp. destruct (in_stream s) as [f|] eqn:Hs.
  2: { rewrite (read_packet_closed s Hs) in Hrp. discriminate. }
  destruct (read_packet_returns s f false s' Hs Hrp) as [[_ Hlt]|[? _]]; [|done].
  rewrite (read_packet_eof s f Hs Hlt) in Hrp. simplify_eq.
  apply (read_packet_at_end _ (read 4 f).2); [done|].
  rewrite available_after_read. lia.
Qed.

(** X9: the error for a packet cut short is raised once.  The short read
    has consumed the rest of the file, so a caller that calls [read_packet]
    again gets [False], the ordinary end of the stream, and no exception. *)
Theorem short_read_then_end_of_stream s f config :
  in_stream s = Some f → (4 ≤ available f)%nat →
  get_channel_configs (header_decoder s)
    !! Z.land (Z.shiftr (leading_word f) 4) 0xfff = Some config →
  (N.of_nat (available f) < event_length config * 4)%N →
  ∃ s',
    read_packet s =
      (inl (RuntimeError (short_read_msg (event_length config * 4) (available f))), s') ∧
    read_packet s' = (inr false, s').
Proof.
  intros Hs Hav Hcfg Hshort.
  pose proof (read_bytes_peeked s f Hs Hav) as Hrb. cbn zeta in Hrb.
  rewrite Hcfg in Hrb. rewrite read_to_end in Hrb by lia. cbn [fst snd] in Hrb.
  fold (available f) in Hrb. destruct (decide _) as [_|Hge] in Hrb; [|lia].
  eexists. split; [by apply read_packet_read_error|].
  eapply read_packet_at_end; [done|].
  unfold available; cbn. rewrite length_drop. lia.
Qed.

(** ** What every call keeps *)

(** X10: whatever a call of [read_packet] does, return or raise, the
    counters never go back: [packet_id] stays or grows by one,
    [n_bytes_read] never decreases, and [any_full], once set, stays set. *)
Theorem read_packet_counters_monotone s r s' :
  read_packet s = (r, s') →
  packet_id s ≤ packet_id s' ≤ packet_id s + 1 ∧
  n_bytes_read s ≤ n_bytes_read s' ∧
  (any_full s = true → any_full s' = true).
Proof.
  intros Hrp.
  destruct (read_packet_frame s r s' Hrp) as (_ & _ & Hfull & Hid & Hbytes & _).
  done.
Qed.

(** X11: whatever a call of [read_packet] does, it neither opens nor closes
    the stream, it reads the same file content and never moves the position
    backwards, and it leaves the header decoder, hence the channel
    configurations, alone. *)
Theorem read_packet_keeps_stream_and_configs s r s' :
  read_packet s = (r, s') →
  (in_stream s = None → in_stream s' = None) ∧
  (∀ f, in_stream s = Some f →
     ∃ f', in_stream s' = Some f' ∧ content f' = content f ∧
           (offset f ≤ offset f')%nat) ∧
  header_decoder s' = header_decoder s ∧
  get_channel_configs (header_decoder s') = get_channel_configs (header_decoder s).
Proof.
  intros Hrp.
  destruct (read_packet_frame s r s' Hrp) as (Hhd & _ & _ & _ & _ & Hnone & Hsome).
  rewrite Hhd. done.
Qed.

(** X12: the packets handed over in a run of [read_packet] calls cut the
    stream into consecutive pieces.  Joined in order they are exactly the
    bytes between the position before the run and the position after it, so
    no byte is skipped and none is handed over twice; each packet has the
    length its channel declares, and [packet_id] has counted them. *)
Theorem delivered_packets_partition_stream s ps sn f0 :
  delivered s ps sn → in_stream s = Some f0 →
  ∃ fn,
    in_stream sn = Some fn ∧ content fn = content f0 ∧
    (offset f0 ≤ offset fn)%nat ∧
    concat (snd <$> ps)
      = take (offset fn - offset f0) (drop (offset f0) (content f0)) ∧
    Forall (λ p, ∃ config,
              get_channel_configs (header_decoder s) !! p.1 = Some config ∧
              length p.2 = N.to_nat (event_length config * 4)) ps ∧
    packet_id sn = packet_id s + Z.of_nat (length ps).
Proof.
  intros Hrun. revert f0.
  induction Hrun as [s|s sr s1 sn fch_id packet rest Hrb Hrp _ IH]; intros f0 Hs.
  - exists f0. rewrite Nat.sub_diag.
    repeat split; [done | lia | constructor | cbn; lia].
  - destruct (packet_step_accounting s s1 Hrp)
      as (f & config & Hf & Hsize & Hav & Hcfg & Hs1 & _ & Hid1).
    cbn zeta in *. assert (f = f0) as -> by congruence.
    set (size := N.to_nat (event_length config * 4)) in *.
    pose proof (read_bytes_peeked s f0 Hs Hav) as Hpeek. cbn zeta in Hpeek.
    rewrite Hrb, Hcfg in Hpeek. fold size in Hpeek.
    destruct (decide _) as [|_] in Hpeek; [discriminate|].
    assert (packet = take size (drop (offset f0) (content f0))) as Hpacket
      by (unfold read in Hpeek; cbn [fst] in Hpeek; congruence).
    assert (fch_id = Z.land (Z.shiftr (leading_word f0) 4) 0xfff) as Hchannel
      by congruence.
    destruct (read_packet_frame _ _ _ Hrp) as (Hhd & _).
    destruct (IH _ Hs1) as (fn & Hfn & Hcontent & Hle & Hcat & Hall & Hid).
    cbn [content offset] in Hcontent, Hle, Hcat.
    exists fn. split; [done|]. split; [done|]. split; [lia|]. split; [|split].
    + cbn. rewrite Hcat, Hpacket.
      rewrite <- (drop_drop (content f0)), take_take_drop. f_equal. lia.
    + constructor.
      * exists config. cbn. split; [by rewrite Hchannel|].
        rewrite Hpacket, length_take. fold (available f0). lia.
      * eapply Forall_impl; [exact Hall|].
        intros p (config' & Hcfg' & Hlen'). exists config'. by rewrite <- Hhd.
    + cbn [length]. lia.
Qed.

(** ** The wire format *)

Lemma channel_of_bytes (x0 x1 x2 x3 : Z) :
  0 ≤ x0 < 256 → 0 ≤ x1 < 256 → 0 ≤ x2 < 256 → 0 ≤ x3 < 256 →
  Z.land (Z.shiftr (x0 + 256 * (x1 + 256 * (x2 + 256 * (x3 + 256 * 0)))) 4) 0xfff
    = x0 / 16 + 16 * x1.
Proof.
  intros H0 H1 H2 H3. change 0xfff with (Z.ones 12).
  rewrite Z.land_ones, Z.shiftr_div_pow2 by lia.
  change (2 ^ 4) with 16. change (2 ^ 12) with 4096.
  Z.div_mod_to_equations. lia.
Qed.

(** X13: on the wire, the channel id sits in the high half of one byte and
    in the whole of its neighbour.  On a little-endian host it is
    [b0 / 16 + 16 * b1] for the first two bytes of the packet; the low half
    of [b0] and the bytes [b2], [b3] play no part.  On a big-endian host it
    is [b3 / 16 + 16 * b2]. *)
Theorem channel_id_from_bytes s f packet fch_id s1 :
  in_stream s = Some f →
  read_bytes s = (inr (Some packet, fch_id), s1) →
  ∃ b0 b1 b2 b3,
    take 4 (drop (offset f) (content f)) = [b0; b1; b2; b3] ∧
    fch_id = match native with
             | LittleEndian => byte_val b0 / 16 + 16 * byte_val b1
             | BigEndian => byte_val b3 / 16 + 16 * byte_val b2
             end.
Proof.
  intros Hs Hrb. destruct (decide (available f < 4)%nat) as [Hlt|Hge].
  { rewrite (read_bytes_eof s f Hs Hlt) in Hrb. discriminate. }
  pose proof (read_bytes_peeked s f Hs ltac:(lia)) as Hpeek. cbn zeta in Hpeek.
  rewrite Hrb in Hpeek.
  destruct (leading_word_bytes f ltac:(lia)) as (b0 & b1 & b2 & b3 & Hbytes & Hword).
  exists b0, b1, b2, b3. split; [done|].
  destruct (_ !! _); [|discriminate]. destruct (decide _); [discriminate|].
  injection Hpeek as _ -> _. rewrite Hword.
  pose proof (byte_val_range b0). pose proof (byte_val_range b1).
  pose proof (byte_val_range b2). pose proof (byte_val_range b3).
  destruct native; cbn [uint32_of le_to_Z]; by apply channel_of_bytes.
Qed.

(** X15: [read_packet] prints one line for each packet it hands to the
    decoder, giving the length of the packet and the new [n_bytes_read];
    a call that returns [False] prints nothing. *)
Theorem read_packet_prints_one_line s f b s' :
  in_stream s = Some f → read_packet s = (inr b, s') →
  if b then
    ∃ size : nat,
      n_bytes_read s' = n_bytes_read s + Z.of_nat size ∧
      stdout s' = stdout s ++ ["Read another " +:+ pretty size +:+
                               " bytes; now at " +:+ pretty (n_bytes_read s')]
  else stdout s' = stdout s.
Proof.
  intros Hs Hrp.
  destruct (read_packet_returns s f b s' Hs Hrp)
    as [[-> Hlt]|(-> & _ & config & full & rbkd & dec & _ & _ & _ & ->)].
  - rewrite (read_packet_eof s f Hs Hlt) in Hrp. by simplify_eq.
  - by eexists.
Qed.

(** ** The unused library builder *)

(** X14: [build_default_rb_lib_XXX] never returns a library.  Its list of
    decoders always holds the event decoder, so the only [return] of the
    body, inside [if len(decoders) == 0], is never reached: the method
    returns [None] for every argument and changes nothing. *)
Theorem build_default_rb_lib_returns_none s (out_stream : string)
    (channel_configs : ChannelConfigs) :
  build_default_rb_lib_XXX out_stream channel_configs s = (inr None, s).
Proof. unfold build_default_rb_lib_XXX. by run. Qed.

End Lifecycle.

(** * The further properties on actual streams *)

Import Files.

Lemma calls_S (n : nat) (s : LLAMAStreamer (env := little)) :
  calls (S n) s = (read_packet (calls n s)).2.
Proof. reflexivity. Qed.

Lemma close_stream_then_unusable_witness :
  ∃ s1, close_stream (after 1 "run.bin") = (inr tt, s1) ∧
        read_packet s1 = (inl (RuntimeError "No stream open!"), s1).
Proof.
  destruct (close_stream_then_unusable (after 1 "run.bin") (mkReader run_bin 42))
    as (s1 & Hclose & _ & _ & _ & _ & _ & Hread & _).
  - evaluate.
  - exists s1. exact (conj Hclose Hread).
Defined.

Lemma open_stream_missing_file_witness :
  open_stream "nope.bin" None 8192 "any_full" EmptyString (init (env := little))
    = (inl (OSError "nope.bin"), init).
Proof.
  apply (open_stream_missing_file (init (env := little)) (OSError "nope.bin")).
  - reflexivity.
  - evaluate.
Defined.

Lemma open_stream_bad_header_stays_open_witness :
  ∃ s1,
    open_stream "stub.bin" None 8192 "any_full" EmptyString (init (env := stub))
      = (inl (RuntimeError "header too short"), s1) ∧
    packet_id s1 = 0 ∧
    open_stream "stub.bin" None 8192 "any_full" EmptyString s1
      = (inl (RuntimeError "tried to open stream while previous one still open"), s1).
Proof.
  destruct (open_stream_bad_header_stays_open (init (env := stub)) ["005"]%byte
              (RuntimeError "header too short")
              "stub.bin" None 8192 "any_full" EmptyString)
    as (s1 & Hopen & _ & _ & Hid & Hagain).
  - reflexivity.
  - reflexivity.
  - evaluate.
  - exists s1. exact (conj Hopen (conj Hid (Hagain _ _ _ _ _))).
Defined.

Lemma open_stream_returns_one_buffer_witness :
  (∃ rb, wild_buffers = [set_loc (Collaborators := wild) 1 rb]) ∧
  (∃ installed,
     base_open_stream (Collaborators := wild) "run.bin" (Some wildcard) 8192
       "any_full" EmptyString = inr installed ∧
     event_rbkd opened_wild = get_keyed_dict <$> installed !! "LLAMAEventDecoder") ∧
  event_rbkd opened_wild = Some [].
Proof.
  destruct (open_stream_returns_one_buffer (init (env := wild)) wild_buffers
              opened_wild "run.bin" (Some wildcard) 8192 "any_full" EmptyString)
    as (_ & Hone & _ & _ & _ & _ & _ & _ & installed & _ & _ & Hbase & Hrbkd & _).
  - exact (returned (open_stream "run.bin" (Some wildcard) 8192 "any_full"
                       EmptyString init)
             (inr wild_buffers) opened_wild ltac:(evaluate) eq_refl).
  - split; [exact Hone|]. split; [|evaluate].
    exists installed. exact (conj Hbase Hrbkd).
Defined.

Lemma open_stream_empty_header_list_witness :
  (∀ rbs s,
     open_stream "run.bin" (Some no_header_buffer) 8192 "any_full" EmptyString
       (init (env := little)) ≠ (inr rbs, s)) ∧
  ∃ s1,
    open_stream "run.bin" (Some no_header_buffer) 8192 "any_full" EmptyString
      (init (env := little)) = (inl IndexError, s1) ∧
    in_stream s1 = Some (mkReader run_bin 2).
Proof.
  destruct (open_stream_empty_header_list (init (env := little)) no_header_buffer
              "run.bin" (Some no_header_buffer) 8192 "any_full" EmptyString)
    as [Hnever Hindex].
  - evaluate.
  - evaluate.
  - split; [exact Hnever|].
    apply (Hindex run_bin (channel5 10) 2 2%nat (channel5 10)).
    + reflexivity.
    + evaluate.
    + evaluate.
Defined.

Lemma decoder_error_after_counting_witness :
  ∃ s', read_packet unbuffered = (inl (OtherError "TypeError"), s') ∧
        packet_id s' = packet_id unbuffered + 1.
Proof.
  destruct (decoder_error_after_counting unbuffered (mkReader run_bin 2)
              (mkChannelConfig 10) (OtherError "TypeError"))
    as (s' & Hraise & Hid & _).
  - evaluate.
  - vm_compute; lia.
  - evaluate.
  - vm_compute; lia.
  - evaluate.
  - exists s'. exact (conj Hraise Hid).
Defined.

Lemma zero_length_event_stalls_witness :
  (∃ s', read_packet stalled = (inr true, s') ∧
         in_stream s' = Some (mkReader packet5 0) ∧
         n_bytes_read s' = n_bytes_read stalled ∧
         packet_id s' = packet_id stalled + 1) ∧
  in_stream (calls 2 stalled) = Some (mkReader packet5 0) ∧
  n_bytes_read (calls 2 stalled) = n_bytes_read stalled ∧
  packet_id (calls 2 stalled) = packet_id stalled + Z.of_nat 2 ∧
  (read_packet (calls 2 stalled)).1 ≠ inr false.
Proof.
  destruct (zero_length_event_stalls stalled (mkReader packet5 0) (mkChannelConfig 0)
              2 (calls 2 stalled))
    as [(s' & Hcall & Hstream & Hbytes & Hid & _) Hrun].
  - evaluate.
  - vm_compute; lia.
  - evaluate.
  - reflexivity.
  - split.
    + exists s'. split; [|exact (conj Hstream (conj Hbytes Hid))].
      assert ((decode_packet [] (event_rbkd stalled) (packet_id stalled + 1)
                 (Z.land (Z.shiftr (leading_word (env := little)
                                      (mkReader packet5 0)) 4) 0xfff)
                 (event_decoder stalled)).1.1 = inr false) as Hdec by evaluate.
      rewrite Hdec in Hcall. exact Hcall.
    + apply Hrun.
      apply (nsteps_l _ _ _ (calls 1 stalled)).
      { exact (returned (read_packet (calls 0 stalled)) (inr true) (calls 1 stalled)
                 ltac:(evaluate) (calls_S 0 stalled)). }
      apply (nsteps_l _ _ _ (calls 2 stalled)).
      { exact (returned (read_packet (calls 1 stalled)) (inr true) (calls 2 stalled)
                 ltac:(evaluate) (calls_S 1 stalled)). }
      apply nsteps_O.
Defined.

Lemma end_of_stream_is_final_witness :
  read_packet (after 3 "cut.bin") = (inr false, after 3 "cut.bin").
Proof.
  apply (end_of_stream_is_final (after 2 "cut.bin") (after 3 "cut.bin")).
  exact (returned (read_packet (after 2 "cut.bin")) (inr false) (after 3 "cut.bin")
           ltac:(evaluate) (after_S 2 "cut.bin")).
Defined.

Lemma short_read_then_end_of_stream_witness :
  ∃ s',
    read_packet (after 0 "short.bin")
      = (inl (RuntimeError
                (short_read_msg (event_length (mkChannelConfig 10) * 4)
                                (available (mkReader short_bin 2)))), s') ∧
    read_packet s' = (inr false, s').
Proof.
  apply (short_read_then_end_of_stream (after 0 "short.bin") (mkReader short_bin 2)
           (mkChannelConfig 10)).
  - evaluate.
  - vm_compute; lia.
  - evaluate.
  - vm_compute. reflexivity.
Defined.

Lemma read_packet_counters_monotone_witness :
  packet_id (after 0 "run.bin") ≤ packet_id (after 1 "run.bin")
    ≤ packet_id (after 0 "run.bin") + 1 ∧
  n_bytes_read (after 0 "run.bin") ≤ n_bytes_read (after 1 "run.bin") ∧
  (any_full (after 0 "run.bin") = true → any_full (after 1 "run.bin") = true).
Proof.
  apply (read_packet_counters_monotone (after 0 "run.bin") (inr true)
           (after 1 "run.bin")).
  exact (returned (read_packet (after 0 "run.bin")) (inr true) (after 1 "run.bin")
           ltac:(evaluate) (after_S 0 "run.bin")).
Defined.

Lemma read_packet_keeps_stream_and_configs_witness :
  header_decoder (after 1 "run.bin") = header_decoder (after 0 "run.bin") ∧
  ∃ f', in_stream (after 1 "run.bin") = Some f' ∧
        content f' = content (mkReader run_bin 2) ∧
        (offset (mkReader run_bin 2) ≤ offset f')%nat.
Proof.
  destruct (read_packet_keeps_stream_and_configs (after 0 "run.bin") (inr true)
              (after 1 "run.bin"))
    as (_ & Hstream & Hdecoder & _).
  - exact (returned (read_packet (after 0 "run.bin")) (inr true) (after 1 "run.bin")
             ltac:(evaluate) (after_S 0 "run.bin")).
  - exact (conj Hdecoder (Hstream (mkReader run_bin 2) ltac:(evaluate))).
Defined.

Lemma delivered_packets_partition_stream_witness :
  ∃ fn,
    in_stream (after 2 "run.bin") = Some fn ∧
    concat (snd <$> [(5, packet5); (5, packet5)])
      = take (offset fn - offset (mkReader run_bin 2))
          (drop (offset (mkReader run_bin 2)) (content (mkReader run_bin 2))) ∧
    packet_id (after 2 "run.bin")
      = packet_id (after 0 "run.bin")
        + Z.of_nat (length [(5, packet5); (5, packet5)]).
Proof.
  destruct (delivered_packets_partition_stream (after 0 "run.bin")
              [(5, packet5); (5, packet5)] (after 2 "run.bin") (mkReader run_bin 2))
    as (fn & Hfn & _ & _ & Hcat & _ & Hid).
  - apply (delivered_next _ (read_bytes (after 0 "run.bin")).2 (after 1 "run.bin")).
    { exact (returned (read_bytes (after 0 "run.bin")) (inr (Some packet5, 5))
               (read_bytes (after 0 "run.bin")).2 ltac:(evaluate) eq_refl). }
    { exact (returned (read_packet (after 0 "run.bin")) (inr true)
               (after 1 "run.bin") ltac:(evaluate) (after_S 0 "run.bin")). }
    apply (delivered_next _ (read_bytes (after 1 "run.bin")).2 (after 2 "run.bin")).
    { exact (returned (read_bytes (after 1 "run.bin")) (inr (Some packet5, 5))
               (read_bytes (after 1 "run.bin")).2 ltac:(evaluate) eq_refl). }
    { exact (returned (read_packet (after 1 "run.bin")) (inr true)
               (after 2 "run.bin") ltac:(evaluate) (after_S 1 "run.bin")). }
    apply delivered_none.
  - evaluate.
  - exists fn. exact (conj Hfn (conj Hcat Hid)).
Defined.

Lemma channel_id_from_bytes_witness :
  ∃ b0 b1 b2 b3 : byte,
    take 4 (drop (offset (mkReader run_bin 2)) (content (mkReader run_bin 2)))
      = [b0; b1; b2; b3] ∧
    5 = match native (Collaborators := little) with
        | LittleEndian => byte_val b0 / 16 + 16 * byte_val b1
        | BigEndian => byte_val b3 / 16 + 16 * byte_val b2
        end.
Proof.
  apply (channel_id_from_bytes (after 0 "run.bin") (mkReader run_bin 2) packet5 5
           (read_bytes (after 0 "run.bin")).2).
  - evaluate.
  - exact (returned (read_bytes (after 0 "run.bin")) (inr (Some packet5, 5))
             (read_bytes (after 0 "run.bin")).2 ltac:(evaluate) eq_refl).
Defined.

Lemma read_packet_prints_one_line_witness :
  ∃ size : nat,
    n_bytes_read (after 1 "run.bin") = n_bytes_read (after 0 "run.bin") + Z.of_nat size ∧
    stdout (after 1 "run.bin")
      = stdout (after 0 "run.bin")
        ++ ["Read another " +:+ pretty size +:+
            " bytes; now at " +:+ pretty (n_bytes_read (after 1 "run.bin"))].
Proof.
  apply (read_packet_prints_one_line (after 0 "run.bin") (mkReader run_bin 2) true
           (after 1 "run.bin")).
  - evaluate.
  - exact (returned (read_packet (after 0 "run.bin")) (inr true) (after 1 "run.bin")
             ltac:(evaluate) (after_S 0 "run.bin")).
Defined.
